(** * Netflix Deep Analysis Dashboard: the filter and aggregation logic

    A shallow embedding of [netflixanalysis.py].  The script is one
    straight-line pass: load six tables, clean the year column, apply the
    sidebar filters, and hand counts and grouped tables to the charts.
    The tables are modelled as lists, a pandas frame as a list of rows
    each carrying its index label, and the exception a pandas call can
    raise as the left side of a sum. *)

From Stdlib Require Import ZArith List String Ascii Bool Lia.
From Stdlib Require Import DecimalString DecimalPos Sorted.
Import ListNotations.
Open Scope Z_scope.

(** ** Python values and the string primitives the script calls *)

Module Py.

(** The exceptions the modelled calls can raise. *)
Inductive exn : Type :=
| ValueError       (* int() on a literal it does not accept *)
| TypeError        (* int() on None *)
| OverflowError.   (* a Python int that does not fit the int64 column *)

Definition result (A : Type) : Type := (exn + A)%type.

Definition ret {A} (a : A) : result A := inr a.
Definition raise {A} (e : exn) : result A := inl e.
Definition bind {A B} (m : result A) (k : A -> result B) : result B :=
  match m with
  | inl e => inl e
  | inr a => k a
  end.
Definition fmap {A B} (f : A -> B) (m : result A) : result B :=
  bind m (fun a => ret (f a)).

(** What a cell read from SQLite holds once it is in an object column:
    a Python int, a str or None (REAL and BLOB cells are left out).
    Strings are sequences of code points below 256 (the characters of
    Rocq's [ascii], read as Latin-1). *)
Inductive cell : Type :=
| CInt (z : Z)
| CText (s : string)
| CNull.

(** [str(z)] for a Python int. *)
Definition str_of_int (z : Z) : string :=
  NilEmpty.string_of_int (Z.to_int z).

(** One element of [Series.astype(str)]. *)
Definition astype_str (c : cell) : string :=
  match c with
  | CInt z => str_of_int z
  | CText s => s
  | CNull => "None"%string
  end.

Definition code (c : ascii) : N := N_of_ascii c.

(** The decimal digits, ['0'..'9']: the only characters below 256 of
    Unicode category Nd. *)
Definition isdecimal_char (c : ascii) : bool :=
  ((48 <=? code c) && (code c <=? 57))%N.

(** The characters below 256 with a Unicode numeric value: the decimal
    digits, the superscripts U+00B2, U+00B3, U+00B9 and the vulgar
    fractions U+00BC..U+00BE. *)
Definition isnumeric_char (c : ascii) : bool :=
  (isdecimal_char c
   || (code c =? 178) || (code c =? 179) || (code c =? 185)
   || ((188 <=? code c) && (code c <=? 190)))%N.

Fixpoint all_chars (p : ascii -> bool) (s : string) : bool :=
  match s with
  | EmptyString => true
  | String c s' => p c && all_chars p s'
  end.

(** [str.isnumeric()]: at least one character and all of them numeric. *)
Definition isnumeric (s : string) : bool :=
  match s with
  | EmptyString => false
  | String _ _ => all_chars isnumeric_char s
  end.

(** [str.isdecimal()]. *)
Definition isdecimal (s : string) : bool :=
  match s with
  | EmptyString => false
  | String _ _ => all_chars isdecimal_char s
  end.

Definition digit_value (c : ascii) : Z := Z.of_N (code c) - 48.

Fixpoint decimal_value (acc : Z) (s : string) : Z :=
  match s with
  | EmptyString => acc
  | String c s' => decimal_value (10 * acc + digit_value c) s'
  end.

(** [int(s)] on a string without sign, blank or underscore (the mask of
    the cleaning step lets no other string reach it): the literal must
    be a non-empty run of decimal digits. *)
Definition int_of_str (s : string) : result Z :=
  if isdecimal s then ret (decimal_value 0 s) else raise ValueError.

Definition int64_min : Z := - 2 ^ 63.
Definition int64_max : Z := 2 ^ 63 - 1.

(** Storing a Python int into an int64 column. *)
Definition to_int64 (z : Z) : result Z :=
  if (int64_min <=? z) && (z <=? int64_max) then ret z
  else raise OverflowError.

(** One element of [Series.astype(int)] on an object column. *)
Definition astype_int (c : cell) : result Z :=
  match c with
  | CInt z => to_int64 z
  | CText s => bind (int_of_str s) to_int64
  | CNull => raise TypeError
  end.

End Py.

(** ** Data frames: rows that carry their index label *)

Module Frame.

Section Frames.
Context {A : Type}.

Definition frame : Type := list (Z * A).

Fixpoint range_index (start : Z) (rows : list A) : frame :=
  match rows with
  | [] => []
  | r :: rows' => (start, r) :: range_index (start + 1) rows'
  end.

(** The frame [pd.read_sql] builds: labels 0, 1, 2, ... *)
Definition of_rows (rows : list A) : frame := range_index 0 rows.

Definition rows (f : frame) : list A := map snd f.

(** [df[mask]] where the mask is computed from each row: the rows are
    kept in order, each with the label it had. *)
Definition mask (p : A -> bool) (f : frame) : frame :=
  filter (fun ir => p (snd ir)) f.

(** [df[df.index.isin(ids)]]. *)
Definition index_isin (ids : list Z) (f : frame) : frame :=
  filter (fun ir => existsb (Z.eqb (fst ir)) ids) f.

(** [df.iloc[0:0]]: the same columns, no row. *)
Definition iloc_0_0 (f : frame) : frame := [].

(** [df.reset_index(drop=True)]: the old labels are thrown away and
    the rows are numbered again from 0. *)
Definition reset_index (f : frame) : frame := of_rows (rows f).

Definition len (f : frame) : Z := Z.of_nat (List.length f).
End Frames.

Arguments frame A : clear implicits.

End Frame.

(** ** The SQL the script sends to SQLite *)

Module Sql.

(** A label column (genre, country): text or NULL. *)
Definition label : Type := option string.

Definition label_eqb (a b : label) : bool :=
  match a, b with
  | Some x, Some y => String.eqb x y
  | None, None => true
  | _, _ => false
  end.

(** [x IN (?, ?, ...)] with text parameters: NULL is in no list. *)
Definition in_params (params : list string) (x : label) : bool :=
  match x with
  | Some s => existsb (String.eqb s) params
  | None => false
  end.

(** [GROUP BY label] with [COUNT( * )]: one group per label, here in
    the order the labels are first met. *)
Fixpoint bump (k : label) (groups : list (label * Z)) : list (label * Z) :=
  match groups with
  | [] => [(k, 1)]
  | (k', n) :: groups' =>
      if label_eqb k k' then (k', n + 1) :: groups'
      else (k', n) :: bump k groups'
  end.

Definition group_count (labels : list label) : list (label * Z) :=
  fold_left (fun groups k => bump k groups) labels [].

(** [ORDER BY total DESC].  SQL leaves the order of equal totals open;
    this sort keeps them in the order of the groups. *)
Fixpoint insert_desc (g : label * Z) (sorted : list (label * Z))
  : list (label * Z) :=
  match sorted with
  | [] => [g]
  | h :: sorted' =>
      if snd h <=? snd g then g :: sorted
      else h :: insert_desc g sorted'
  end.

Definition order_by_total_desc (groups : list (label * Z))
  : list (label * Z) :=
  fold_right insert_desc [] groups.

(** [SELECT label, COUNT( * ) AS total FROM t GROUP BY label
     ORDER BY total DESC] on the label column of [t]. *)
Definition select_label_totals (labels : list label) : list (label * Z) :=
  order_by_total_desc (group_count labels).

End Sql.

(** ** The dashboard script *)

Module Netflix.

Import Py.
Import Frame.

(** A row of [movies] or [tvshows].  [Y] is the type of the year column:
    a raw cell as loaded, an integer once cleaned.  [others] holds the
    remaining columns of [SELECT *] by name. *)
Record row (Y : Type) : Type := mkRow {
  release_year : Y;
  rating : option string;
  others : list (string * cell)
}.
Arguments mkRow {Y}.
Arguments release_year {Y}.
Arguments rating {Y}.
Arguments others {Y}.

(** A row of [movie_genres] or [tvshow_genres]. *)
Record GenreLink : Type := mkGenreLink {
  rowid : Z;
  genre : Sql.label
}.

(** A row of [movie_countries] or [tvshows_countries]. *)
Record CountryLink : Type := mkCountryLink {
  country_rowid : Z;
  country : Sql.label
}.

(** The six tables of [netflix.db]. *)
Record Database : Type := mkDatabase {
  tbl_movies : list (row cell);
  tbl_tvshows : list (row cell);
  tbl_movie_genres : list GenreLink;
  tbl_tvshow_genres : list GenreLink;
  tbl_movie_countries : list CountryLink;
  tbl_tvshows_countries : list CountryLink
}.

(** *** Data loading *)

Definition load_movies (db : Database) : frame (row cell) :=
  of_rows (tbl_movies db).

Definition load_tvshows (db : Database) : frame (row cell) :=
  of_rows (tbl_tvshows db).

Definition load_movie_genres (db : Database) : list (Sql.label * Z) :=
  Sql.select_label_totals (map genre (tbl_movie_genres db)).

Definition load_tv_genres (db : Database) : list (Sql.label * Z) :=
  Sql.select_label_totals (map genre (tbl_tvshow_genres db)).

Definition load_movie_countries (db : Database) : list (Sql.label * Z) :=
  Sql.select_label_totals (map country (tbl_movie_countries db)).

Definition load_tv_countries (db : Database) : list (Sql.label * Z) :=
  Sql.select_label_totals (map country (tbl_tvshows_countries db)).

(** *** Data cleaning *)

(** [df[df["release_year"].astype(str).str.isnumeric()]] *)
Definition isnumeric_mask (f : frame (row cell)) : frame (row cell) :=
  mask (fun r => isnumeric (astype_str (release_year r))) f.

Definition with_year {Y Y'} (r : row Y) (y : Y') : row Y' :=
  mkRow y (rating r) (others r).

(** [df["release_year"] = df["release_year"].astype(int)]: the column is
    converted element by element, and the first element that cannot be
    converted raises. *)
Fixpoint astype_int_column (f : frame (row cell)) : result (frame (row Z)) :=
  match f with
  | [] => ret []
  | (i, r) :: f' =>
      bind (astype_int (release_year r)) (fun y =>
      bind (astype_int_column f') (fun g =>
      ret ((i, with_year r y) :: g)))
  end.

(** The cleaning of one fact table. *)
Definition clean_table (f : frame (row cell)) : result (frame (row Z)) :=
  astype_int_column (isnumeric_mask f).

(** The cleaning block: both masks, then both conversions, movies first. *)
Definition data_cleaning (movies tvshows : frame (row cell))
  : result (frame (row Z) * frame (row Z)) :=
  let movies := isnumeric_mask movies in
  let tvshows := isnumeric_mask tvshows in
  bind (astype_int_column movies) (fun movies =>
  bind (astype_int_column tvshows) (fun tvshows =>
  ret (movies, tvshows))).

(** *** Sidebar filters *)

Inductive ContentType : Type := Both | Movies | TV_Shows.

Record FilterSpec : Type := mkFilterSpec {
  year_range : Z * Z;
  content_type : ContentType;
  genre_filter : list string;
  country_filter : list string;
  rating_filter : list string
}.

(** *** Apply filters *)

(** [Series.between(lo, hi)], both ends included. *)
Definition between (range : Z * Z) (x : Z) : bool :=
  (fst range <=? x) && (x <=? snd range).

(** [Series.isin(values)] on the rating column; the values are the text
    options of the multiselect. *)
Definition isin (values : list string) (x : option string) : bool :=
  match x with
  | Some s => existsb (String.eqb s) values
  | None => false
  end.

Definition year_step (fs : FilterSpec) (f : frame (row Z)) : frame (row Z) :=
  mask (fun r => between (year_range fs) (release_year r)) f.

(** [if rating_filter: df = df[df["rating"].isin(rating_filter)]] *)
Definition rating_step (fs : FilterSpec) (f : frame (row Z))
  : frame (row Z) :=
  match rating_filter fs with
  | [] => f
  | _ :: _ => mask (fun r => isin (rating_filter fs) (rating r)) f
  end.

(** Lines 170 to 184: year, rating, content type, then [reset_index]. *)
Definition basic_filters (fs : FilterSpec) (movies tvshows : frame (row Z))
  : frame (row Z) * frame (row Z) :=
  let movies_f := year_step fs movies in
  let tvshows_f := year_step fs tvshows in
  let movies_f := rating_step fs movies_f in
  let tvshows_f := rating_step fs tvshows_f in
  let '(movies_f, tvshows_f) :=
    match content_type fs with
    | Movies => (movies_f, iloc_0_0 tvshows_f)
    | TV_Shows => (iloc_0_0 movies_f, tvshows_f)
    | Both => (movies_f, tvshows_f)
    end in
  (reset_index movies_f, reset_index tvshows_f).

(** [SELECT DISTINCT rowid FROM links WHERE genre IN (...)] as a list. *)
Definition select_rowids (genres : list string) (links : list GenreLink)
  : list Z :=
  nodup Z.eq_dec
    (map rowid (filter (fun l => Sql.in_params genres (genre l)) links)).

(** [df[df.index.isin(ids)] if ids else df.iloc[0:0]] *)
Definition keep_ids (ids : list Z) (f : frame (row Z)) : frame (row Z) :=
  match ids with
  | [] => iloc_0_0 f
  | _ :: _ => index_isin ids f
  end.

(** Lines 189 to 222: the genre filter. *)
Definition genre_block (fs : FilterSpec) (db : Database)
  (movies_f tvshows_f : frame (row Z)) : frame (row Z) * frame (row Z) :=
  match genre_filter fs with
  | [] => (movies_f, tvshows_f)
  | _ :: _ =>
      let movie_ids := select_rowids (genre_filter fs) (tbl_movie_genres db) in
      let tv_ids := select_rowids (genre_filter fs) (tbl_tvshow_genres db) in
      (keep_ids movie_ids movies_f, keep_ids tv_ids tvshows_f)
  end.

Definition apply_filters (fs : FilterSpec) (db : Database)
  (movies tvshows : frame (row Z)) : frame (row Z) * frame (row Z) :=
  let '(movies_f, tvshows_f) := basic_filters fs movies tvshows in
  genre_block fs db movies_f tvshows_f.

(** *** KPI metrics *)

Definition kpi_metrics (movies_f tvshows_f : frame (row Z)) : Z * Z * Z :=
  (len movies_f, len tvshows_f, len movies_f + len tvshows_f).

(** *** Year-wise trends *)

(** One step of [groupby(key).size()]: the groups are kept sorted by
    key, as pandas returns them. *)
Fixpoint count_key (k : Z) (groups : list (Z * Z)) : list (Z * Z) :=
  match groups with
  | [] => [(k, 1)]
  | (k', n) :: groups' =>
      if k <? k' then (k, 1) :: groups
      else if k =? k' then (k', n + 1) :: groups'
      else (k', n) :: count_key k groups'
  end.

(** [groupby(key).size().reset_index(name=...)] on the key column. *)
Definition groupby_size (keys : list Z) : list (Z * Z) :=
  fold_right count_key [] keys.

Definition values_at (k : Z) (t : list (Z * Z)) : list Z :=
  map snd (filter (fun kv => fst kv =? k) t).

(** The rows an outer merge makes for one key: every pairing of the left
    and right rows with that key, or the rows of one side next to a
    missing value when the other side has none. *)
Definition merge_key (k : Z) (ls rs : list Z)
  : list (Z * option Z * option Z) :=
  match ls, rs with
  | [], _ => map (fun v => (k, None, Some v)) rs
  | _ :: _, [] => map (fun u => (k, Some u, None)) ls
  | _ :: _, _ :: _ =>
      flat_map (fun u => map (fun v => (k, Some u, Some v)) rs) ls
  end.

(** [pd.merge(l, r, on=key, how="outer")]: the union of the keys, in
    sorted order. *)
Definition merge_outer (l r : list (Z * Z))
  : list (Z * option Z * option Z) :=
  flat_map (fun k => merge_key k (values_at k l) (values_at k r))
    (map fst (groupby_size (map fst l ++ map fst r))).

Definition fill (d : Z) (x : option Z) : Z :=
  match x with
  | Some v => v
  | None => d
  end.

(** [.fillna(d)] *)
Definition fillna (d : Z) (t : list (Z * option Z * option Z))
  : list (Z * Z * Z) :=
  map (fun '(k, a, b) => (k, fill d a, fill d b)) t.

Definition years (f : frame (row Z)) : list Z :=
  map release_year (rows f).

(** [trend_df]: release_year, Movies, TV Shows. *)
Definition year_wise_trends (movies_f tvshows_f : frame (row Z))
  : list (Z * Z * Z) :=
  let movies_year := groupby_size (years movies_f) in
  let tv_year := groupby_size (years tvshows_f) in
  fillna 0 (merge_outer movies_year tv_year).

(** *** The page *)

(** [df.head(10)] *)
Definition head10 {A} (t : list A) : list A := firstn 10 t.

(** What one run of the script hands to the charts. *)
Record Page : Type := mkPage {
  page_movies_f : frame (row Z);
  page_tvshows_f : frame (row Z);
  page_kpi : Z * Z * Z;
  page_trend_df : list (Z * Z * Z);
  fig_movie_genre : list (Sql.label * Z);
  fig_tv_genre : list (Sql.label * Z);
  fig_movie_country : list (Sql.label * Z);
  fig_tv_country : list (Sql.label * Z)
}.

(** The script from top to bottom, for the tables of [db] and the
    sidebar selection [fs]; the sidebar widgets are modelled by what they
    return, the selection, and the charts by the tables they are given. *)
Definition dashboard (fs : FilterSpec) (db : Database) : result Page :=
  let movies := load_movies db in
  let tvshows := load_tvshows db in
  let movie_genres := load_movie_genres db in
  let tv_genres := load_tv_genres db in
  let movie_countries := load_movie_countries db in
  let tv_countries := load_tv_countries db in
  bind (data_cleaning movies tvshows) (fun '(movies, tvshows) =>
  let '(movies_f, tvshows_f) := apply_filters fs db movies tvshows in
  ret (mkPage movies_f tvshows_f
         (kpi_metrics movies_f tvshows_f)
         (year_wise_trends movies_f tvshows_f)
         (head10 movie_genres) (head10 tv_genres)
         (head10 movie_countries) (head10 tv_countries))).

(** The chart tables of genre and country popularity. *)
Definition popularity (p : Page)
  : list (Sql.label * Z) * list (Sql.label * Z)
    * list (Sql.label * Z) * list (Sql.label * Z) :=
  (fig_movie_genre p, fig_tv_genre p, fig_movie_country p, fig_tv_country p).

End Netflix.

(** ** The specification's reading of the cleaning and filter steps

    These definitions follow the words of the specification (sections 4.2
    and 4.3), not the script; the theorems below compare the script with
    them. *)

Module Spec.

Import Py.
Import Frame.
Import Netflix.

Definition is_digit (c : ascii) : bool :=
  existsb (Ascii.eqb c)
    ["0"; "1"; "2"; "3"; "4"; "5"; "6"; "7"; "8"; "9"]%char.

(** "consists solely of digits": a run of digits, at least one. *)
Definition solely_digits (s : string) : bool :=
  match s with
  | EmptyString => false
  | String _ _ => all_chars is_digit s
  end.

(** The integer a retained year field stands for. *)
Definition year_value (c : cell) : Z :=
  match c with
  | CInt z => z
  | CText s => decimal_value 0 s
  | CNull => 0
  end.

(** Section 4.2: keep the rows whose year, read as a string, consists
    solely of digits; convert the year; drop the others, raising nothing. *)
Definition year_normalizer (f : frame (row cell)) : frame (row Z) :=
  map (fun ir => (fst ir, with_year (snd ir) (year_value (release_year (snd ir)))))
    (mask (fun r => solely_digits (astype_str (release_year r))) f).

Inductive Category : Type := MovieTable | TVShowTable.

Definition content_type_matches (ct : ContentType) (c : Category) : bool :=
  match ct, c with
  | Both, _ => true
  | Movies, MovieTable => true
  | TV_Shows, TVShowTable => true
  | _, _ => false
  end.

(** "row identifier appears in the set of identifiers associated with at
    least one genre in FilterSpec.genres, via the GenreLink association,
    OR FilterSpec.genres is empty". *)
Definition genre_matches (genres : list string) (links : list GenreLink)
  (id : Z) : bool :=
  match genres with
  | [] => true
  | _ :: _ =>
      existsb (fun l => (rowid l =? id) && Sql.in_params genres (genre l))
        links
  end.

Definition rating_matches (ratings : list string) (x : option string)
  : bool :=
  match ratings with
  | [] => true
  | _ :: _ => isin ratings x
  end.

(** The year and rating predicates together. *)
Definition year_and_rating (fs : FilterSpec) (r : row Z) : bool :=
  between (year_range fs) (release_year r)
  && rating_matches (rating_filter fs) (rating r).

(** Section 4.3: the rows of the fact table that satisfy all four
    predicates, a row's identifier being its label in the fact table. *)
Definition filter_engine (c : Category) (fs : FilterSpec)
  (links : list GenreLink) (f : frame (row Z)) : frame (row Z) :=
  filter (fun ir =>
            between (year_range fs) (release_year (snd ir))
            && rating_matches (rating_filter fs) (rating (snd ir))
            && content_type_matches (content_type fs) c
            && genre_matches (genre_filter fs) links (fst ir))
    f.

End Spec.

(** ** Predicates on year cells, for the statements about the cleaning *)

Module Cell.

Import Py.


(** A character of the ASCII range, U+0000 to U+007F. *)
Definition is_ascii (c : ascii) : bool := (code c <? 128)%N.

(** A cell the conversion of the script handles as the specification
    says: its text, when numeric, is made of decimal digits only, and
    its value fits the int64 column. *)
Definition convertible (c : cell) : Prop :=
  isnumeric (astype_str c) = true ->
  isdecimal (astype_str c) = true
  /\ int64_min <= Spec.year_value c <= int64_max.

End Cell.

(** ** Counting, for the statements about the aggregates *)

Module Count.

Import Frame.
Import Netflix.

(** How many of [keys] equal [k]. *)
Definition occurrences (k : Z) (keys : list Z) : Z :=
  Z.of_nat (List.length (filter (Z.eqb k) keys)).

(** How many rows of [f] have the release year [y]. *)
Definition rows_in_year (y : Z) (f : frame (row Z)) : Z :=
  occurrences y (years f).

(** How many of [labels] equal [l]. *)
Definition label_occurrences (l : Sql.label) (labels : list Sql.label) : Z :=
  Z.of_nat (List.length (filter (Sql.label_eqb l) labels)).

(** The sum of the counts a grouped table holds for the key [k]. *)
Definition total_at (k : Z) (t : list (Z * Z)) : Z :=
  fold_right Z.add 0 (values_at k t).

Definition label_total_at (l : Sql.label) (t : list (Sql.label * Z)) : Z :=
  fold_right Z.add 0
    (map snd (filter (fun g => Sql.label_eqb l (fst g)) t)).

(** The year column of the trend table. *)
Definition trend_years (t : list (Z * Z * Z)) : list Z :=
  map (fun row => fst (fst row)) t.

(** The keys of the merged table: the years of either side, sorted. *)
Definition merged_keys (a b : list Z) : list Z :=
  map fst (groupby_size (map fst (groupby_size a) ++ map fst (groupby_size b))).

(** Totals from the largest down. *)
Definition total_ge (a b : Sql.label * Z) : Prop := snd b <= snd a.

(** [t] is the popularity table of a label column: one row per label
    of the column, with the number of rows that carry it, the largest
    totals first. *)
Definition popularity_table (labels : list Sql.label)
  (t : list (Sql.label * Z)) : Prop :=
  StronglySorted total_ge t
  /\ NoDup (map fst t)
  /\ forall l n,
      In (l, n) t <-> In l labels /\ n = label_occurrences l labels.

(** [t] is what a chart shows of the table [full]: its first ten rows. *)
Definition top10_of (full t : list (Sql.label * Z)) : Prop :=
  t = firstn 10 full
  /\ (List.length t <= 10)%nat
  /\ StronglySorted total_ge t.

End Count.

(** ** Sample data *)

Module Examples.

Import Py.
Import Frame.
Import Netflix.

Definition title (s : string) : list (string * cell) :=
  [("title"%string, CText s)].

Definition movie_a : row cell := mkRow (CInt 2000) (Some "PG"%string) (title "A").
Definition movie_b : row cell := mkRow (CInt 2015) (Some "R"%string) (title "B").
Definition movie_c : row cell := mkRow (CText "2016") None (title "C").
Definition show_s : row cell := mkRow (CInt 2012) (Some "TV-MA"%string) (title "S").
Definition show_t : row cell := mkRow (CText "Unknown") None (title "T").

(** Three movies and two shows; the movie at position 1 (B) is the only
    one linked to the genre Dramas, the movie at position 2 (C) is linked
    to Comedies. *)
Definition sample_db : Database :=
  mkDatabase
    [movie_a; movie_b; movie_c]
    [show_s; show_t]
    [mkGenreLink 1 (Some "Dramas"%string);
     mkGenreLink 2 (Some "Comedies"%string)]
    [mkGenreLink 1 (Some "Kids TV"%string)]
    [mkCountryLink 1 (Some "India"%string);
     mkCountryLink 2 (Some "India"%string);
     mkCountryLink 3 (Some "Japan"%string)]
    [mkCountryLink 1 None].

(** The tables of [sample_db] once cleaned. *)
Definition sample_movies : frame (row Z) :=
  [(0, mkRow 2000 (Some "PG"%string) (title "A"));
   (1, mkRow 2015 (Some "R"%string) (title "B"));
   (2, mkRow 2016 None (title "C"))].

Definition sample_tvshows : frame (row Z) :=
  [(0, mkRow 2012 (Some "TV-MA"%string) (title "S"))].

(** Years 2010 to 2020, both kinds of content, the genre Dramas. *)
Definition dramas_2010_2020 : FilterSpec :=
  mkFilterSpec (2010, 2020) Both ["Dramas"%string] [] [].

(** The one-character string U+00BD, vulgar fraction one half. *)
Definition one_half : string := String "189"%char EmptyString.

(** A movies table with one row whose year is the text U+00BD. *)
Definition half_year_movies : frame (row cell) :=
  of_rows [mkRow (CText one_half) None (title "H")].

End Examples.

(** ** The sidebar values and the rating chart *)

Module Sidebar.

Import Py.
Import Frame.
Import Netflix.

(** *** Year bounds *)

(** What [Series.min()] and [Series.max()] return on an integer column:
    an integer, or NaN when the column has no row. *)
Inductive num : Type :=
| Int (z : Z)
| NaN.

Definition series_min (col : list Z) : num :=
  match col with
  | [] => NaN
  | x :: col' => Int (fold_left Z.min col' x)
  end.

Definition series_max (col : list Z) : num :=
  match col with
  | [] => NaN
  | x :: col' => Int (fold_left Z.max col' x)
  end.

(** [a < b] on numbers: every comparison with NaN is false. *)
Definition num_ltb (a b : num) : bool :=
  match a, b with
  | Int x, Int y => x <? y
  | _, _ => false
  end.

(** The builtin [min(a, b)]: the first argument unless the second is
    smaller. *)
Definition py_min (a b : num) : num := if num_ltb b a then b else a.

(** The builtin [max(a, b)]: the first argument unless the second is
    larger. *)
Definition py_max (a b : num) : num := if num_ltb a b then b else a.

Definition min_year (movies tvshows : frame (row Z)) : num :=
  py_min (series_min (years movies)) (series_min (years tvshows)).

Definition max_year (movies tvshows : frame (row Z)) : num :=
  py_max (series_max (years movies)) (series_max (years tvshows)).

(** *** Filter master values *)

(** [Series.dropna()] on a text column. *)
Definition dropna (col : list (option string)) : list string :=
  flat_map (fun x => match x with Some s => [s] | None => [] end) col.

(** [Series.unique()]: the values in the order they are first met. *)
Definition unique (col : list string) : list string :=
  fold_left
    (fun seen x => if existsb (String.eqb x) seen then seen else seen ++ [x])
    col [].

Fixpoint insert_sorted (x : string) (l : list string) : list string :=
  match l with
  | [] => [x]
  | y :: l' => if String.leb x y then x :: l else y :: insert_sorted x l'
  end.

(** [sorted(xs)] on texts: by code point, character by character. *)
Definition sorted (l : list string) : list string :=
  fold_right insert_sorted [] l.

(** [sorted(col.dropna().unique())] *)
Definition master_values (col : list (option string)) : list string :=
  sorted (unique (dropna col)).

Definition all_movie_genres (db : Database) : list string :=
  master_values (map fst (load_movie_genres db)).

Definition all_tv_genres (db : Database) : list string :=
  master_values (map fst (load_tv_genres db)).

Definition all_movie_countries (db : Database) : list string :=
  master_values (map fst (load_movie_countries db)).

Definition all_tv_countries (db : Database) : list string :=
  master_values (map fst (load_tv_countries db)).

Definition all_movie_ratings (movies : frame (row Z)) : list string :=
  master_values (map rating (rows movies)).

Definition all_tv_ratings (tvshows : frame (row Z)) : list string :=
  master_values (map rating (rows tvshows)).

(** [sorted(set(a + b))]: a set holds each value once, in an order of its
    own; sorting makes the order of the set irrelevant. *)
Definition sorted_set (a b : list string) : list string :=
  sorted (unique (a ++ b)).

(** The options of the three multiselects. *)
Definition genre_options (db : Database) : list string :=
  sorted_set (all_movie_genres db) (all_tv_genres db).

Definition country_options (db : Database) : list string :=
  sorted_set (all_movie_countries db) (all_tv_countries db).

Definition rating_options (movies tvshows : frame (row Z)) : list string :=
  sorted_set (all_movie_ratings movies) (all_tv_ratings tvshows).

(** *** Rating analysis *)

(** One step of [groupby("rating").size()]: the groups are kept sorted by
    rating. *)
Fixpoint count_rating (k : string) (groups : list (string * Z))
  : list (string * Z) :=
  match groups with
  | [] => [(k, 1)]
  | (k', n) :: groups' =>
      if String.ltb k k' then (k, 1) :: groups
      else if String.eqb k k' then (k', n + 1) :: groups'
      else (k', n) :: count_rating k groups'
  end.

(** [df.groupby("rating").size().reset_index(name="total")]: rows whose
    rating is missing belong to no group. *)
Definition rating_totals (f : frame (row Z)) : list (string * Z) :=
  fold_right count_rating [] (dropna (map rating (rows f))).

(** The sum of a count column. *)
Definition column_sum (col : list Z) : Z := fold_right Z.add 0 col.

(** Texts in increasing order, none repeated. *)
Definition str_lt (a b : string) : Prop := String.ltb a b = true.

(** How many of [col] equal [s]. *)
Definition str_occurrences (s : string) (col : list string) : Z :=
  Z.of_nat (List.length (filter (String.eqb s) col)).

(** The sum of the totals a grouped table holds for the rating [k]. *)
Definition rating_total_at (k : string) (t : list (string * Z)) : Z :=
  column_sum (map snd (filter (fun g => String.eqb k (fst g)) t)).

End Sidebar.

(** * Properties *)

(** ** Frames *)

Module FrameFacts.

Import Frame.

Section Facts.
Context {A : Type}.

Lemma rows_range_index (start : Z) (l : list A) :
  rows (range_index start l) = l.
Proof.
  revert start; induction l as [|a l IH]; intros start.
  - reflexivity.
  - unfold rows in *. simpl. f_equal. apply IH.
Qed.

Lemma rows_reset_index (f : frame A) : rows (reset_index f) = rows f.
Proof. apply rows_range_index. Qed.

Lemma rows_mask (p : A -> bool) (f : frame A) :
  rows (mask p f) = filter p (rows f).
Proof.
  unfold rows, mask.
  induction f as [|[i r] f IH]; simpl; [reflexivity|].
  destruct (p r); simpl; now rewrite IH.
Qed.

Lemma in_mask (p : A -> bool) (f : frame A) (i : Z) (r : A) :
  In (i, r) (mask p f) <-> In (i, r) f /\ p r = true.
Proof. unfold mask. now rewrite filter_In. Qed.

Lemma len_rows (f : frame A) : len f = Z.of_nat (List.length (rows f)).
Proof. unfold len, rows. now rewrite length_map. Qed.

Lemma len_nonneg (f : frame A) : 0 <= len f.
Proof. unfold len. lia. Qed.
End Facts.

End FrameFacts.

(** ** The filters *)

Module FilterFacts.

Import Py Frame Netflix FrameFacts.

Lemma between_spec (range : Z * Z) (x : Z) :
  between range x = true <-> fst range <= x <= snd range.
Proof. unfold between. rewrite andb_true_iff, !Z.leb_le. tauto. Qed.

Lemma isin_spec (values : list string) (x : option string) :
  isin values x = true <-> exists s, x = Some s /\ In s values.
Proof.
  destruct x as [s|]; simpl.
  - rewrite existsb_exists. split.
    + intros [s' [Hin Heq]]. apply String.eqb_eq in Heq. subst s'.
      now exists s.
    + intros [s' [[= <-] Hin]]. exists s. split; [assumption|].
      apply String.eqb_refl.
  - split; [discriminate|]. now intros [s [? _]].
Qed.

Lemma basic_filters_countries fs1 fs2 movies tvshows :
  year_range fs1 = year_range fs2 ->
  content_type fs1 = content_type fs2 ->
  rating_filter fs1 = rating_filter fs2 ->
  basic_filters fs1 movies tvshows = basic_filters fs2 movies tvshows.
Proof.
  intros Hy Hc Hr.
  unfold basic_filters, rating_step, year_step. now rewrite Hy, Hc, Hr.
Qed.

Lemma apply_filters_congr fs1 fs2 db movies tvshows :
  year_range fs1 = year_range fs2 ->
  content_type fs1 = content_type fs2 ->
  genre_filter fs1 = genre_filter fs2 ->
  rating_filter fs1 = rating_filter fs2 ->
  apply_filters fs1 db movies tvshows = apply_filters fs2 db movies tvshows.
Proof.
  intros Hy Hc Hg Hr. unfold apply_filters.
  rewrite (basic_filters_countries fs1 fs2) by assumption.
  destruct (basic_filters fs2 movies tvshows) as [m t].
  unfold genre_block. now rewrite Hg.
Qed.

Lemma keep_ids_nil ids : keep_ids ids [] = [].
Proof. now destruct ids. Qed.

Lemma keep_ids_subset ids f i r : In (i, r) (keep_ids ids f) -> In (i, r) f.
Proof.
  destruct ids as [|z ids]; simpl; [tauto|].
  unfold index_isin. rewrite filter_In. tauto.
Qed.

Lemma in_rows_range_index (start : Z) (l : list (row Z)) i r :
  In (i, r) (range_index start l) -> In r l.
Proof.
  revert start; induction l as [|a l IH]; intros start; simpl; [tauto|].
  intros [[= _ <-]|H]; [now left|right; eauto].
Qed.

Lemma in_reset_index (f : frame (row Z)) i r :
  In (i, r) (reset_index f) -> In r (rows f).
Proof. apply in_rows_range_index. Qed.

End FilterFacts.

Import Py Frame Netflix.

(** C6.  The KPI block returns three integers: the number of rows of the
    filtered movies table, the number of rows of the filtered TV shows
    table, and their sum; the third always equals the first plus the
    second.  It is a total function into plain integers: it has no error
    result. *)
Theorem kpi_metrics_counts_and_total (movies_f tvshows_f : frame (row Z)) :
  exists k1 k2 k3 : Z,
    kpi_metrics movies_f tvshows_f = (k1, k2, k3)
    /\ k1 = Z.of_nat (List.length (rows movies_f))
    /\ k2 = Z.of_nat (List.length (rows tvshows_f))
    /\ k3 = k1 + k2.
Proof.
  exists (len movies_f), (len tvshows_f), (len movies_f + len tvshows_f).
  rewrite <- !FrameFacts.len_rows. repeat split.
Qed.

(** C4.  A row survives the year step exactly when its release_year lies
    between the two bounds of the year range, both included.  In
    particular the range (2015, 2018) with content type Both and no
    rating or genre selected keeps, of rows at 2014, 2015, 2018 and 2020,
    exactly the rows at 2015 and 2018, in the movies table as in the TV
    shows table. *)
Theorem year_range_is_inclusive :
  (forall fs f i r,
      In (i, r) (year_step fs f)
      <-> In (i, r) f
          /\ fst (year_range fs) <= release_year r <= snd (year_range fs))
  /\ (forall countries db other ra oa rb ob rc oc rd od,
         let fs := mkFilterSpec (2015, 2018) Both [] countries [] in
         let t := of_rows [mkRow 2014 ra oa; mkRow 2015 rb ob;
                           mkRow 2018 rc oc; mkRow 2020 rd od] in
         rows (fst (apply_filters fs db t other))
           = [mkRow 2015 rb ob; mkRow 2018 rc oc]
         /\ rows (snd (apply_filters fs db other t))
           = [mkRow 2015 rb ob; mkRow 2018 rc oc]).
Proof.
  split.
  - intros fs f i r. unfold year_step.
    rewrite FrameFacts.in_mask, FilterFacts.between_spec. reflexivity.
  - intros countries db other ra oa rb ob rc oc rd od fs t.
    split; reflexivity.
Qed.

(** C5.  With content type Movies the filtered TV shows table has no row,
    whatever the year range, the ratings, the genres, the countries and
    the tables are; with content type TV Shows the filtered movies table
    has no row.  The excluded table is still returned: it is the empty
    frame, and its KPI is 0. *)
Theorem excluded_category_is_empty :
  forall yr genres countries ratings db movies tvshows,
    snd (apply_filters (mkFilterSpec yr Movies genres countries ratings)
           db movies tvshows) = []
    /\ fst (apply_filters (mkFilterSpec yr TV_Shows genres countries ratings)
              db movies tvshows) = []
    /\ len (snd (apply_filters (mkFilterSpec yr Movies genres countries ratings)
                   db movies tvshows)) = 0
    /\ len (fst (apply_filters (mkFilterSpec yr TV_Shows genres countries ratings)
                   db movies tvshows)) = 0.
Proof.
  intros yr genres countries ratings db movies tvshows.
  assert (H1 : snd (apply_filters (mkFilterSpec yr Movies genres countries ratings)
                      db movies tvshows) = []).
  { unfold apply_filters, basic_filters, genre_block; simpl.
    destruct genres; simpl; [reflexivity|]. apply FilterFacts.keep_ids_nil. }
  assert (H2 : fst (apply_filters (mkFilterSpec yr TV_Shows genres countries ratings)
                      db movies tvshows) = []).
  { unfold apply_filters, basic_filters, genre_block; simpl.
    destruct genres; simpl; [reflexivity|]. apply FilterFacts.keep_ids_nil. }
  rewrite H1, H2. repeat split.
Qed.

(** C9.  The country selection is never read by the filters: two
    selections that agree on the year range, the content type, the genres
    and the ratings give the same filtered movies and TV shows tables for
    every pair of fact tables, and the same page (KPIs, trend table and
    charts) for every database. *)
Theorem country_filter_has_no_effect (fs1 fs2 : FilterSpec) (db : Database) :
  year_range fs1 = year_range fs2 ->
  content_type fs1 = content_type fs2 ->
  genre_filter fs1 = genre_filter fs2 ->
  rating_filter fs1 = rating_filter fs2 ->
  (forall movies tvshows,
      apply_filters fs1 db movies tvshows = apply_filters fs2 db movies tvshows)
  /\ dashboard fs1 db = dashboard fs2 db.
Proof.
  intros Hy Hc Hg Hr.
  assert (H : forall movies tvshows,
             apply_filters fs1 db movies tvshows
             = apply_filters fs2 db movies tvshows).
  { intros. now apply FilterFacts.apply_filters_congr. }
  split; [exact H|].
  unfold dashboard.
  destruct (data_cleaning (load_movies db) (load_tvshows db)) as [e|[m t]];
    simpl; [reflexivity|].
  now rewrite H.
Qed.

Lemma country_filter_has_no_effect_witness :
  dashboard (mkFilterSpec (2010, 2020) Both [] ["India"%string] [])
    Examples.sample_db
  = dashboard (mkFilterSpec (2010, 2020) Both [] [] []) Examples.sample_db.
Proof.
  exact (proj2 (country_filter_has_no_effect
                  (mkFilterSpec (2010, 2020) Both [] ["India"%string] [])
                  (mkFilterSpec (2010, 2020) Both [] [] [])
                  Examples.sample_db eq_refl eq_refl eq_refl eq_refl)).
Defined.

(** C2.  When genres are selected and the query for the matching row ids
    of a fact table returns none, the filtered table of that fact table is
    empty, whatever the other filters let through. *)
Theorem no_genre_ids_gives_empty_table
  (fs : FilterSpec) (db : Database) (movies tvshows : frame (row Z)) :
  genre_filter fs <> [] ->
  (select_rowids (genre_filter fs) (tbl_movie_genres db) = [] ->
   fst (apply_filters fs db movies tvshows) = [])
  /\ (select_rowids (genre_filter fs) (tbl_tvshow_genres db) = [] ->
      snd (apply_filters fs db movies tvshows) = []).
Proof.
  intros Hg. unfold apply_filters.
  destruct (basic_filters fs movies tvshows) as [m t].
  unfold genre_block.
  destruct (genre_filter fs) as [|g gs]; [contradiction|].
  split; intros ->; reflexivity.
Qed.

Lemma no_genre_ids_gives_empty_table_witness :
  let fs := mkFilterSpec (2010, 2020) Both ["Horror"%string] [] [] in
  fst (basic_filters fs Examples.sample_movies Examples.sample_tvshows) <> []
  /\ fst (apply_filters fs Examples.sample_db
            Examples.sample_movies Examples.sample_tvshows) = []
  /\ snd (apply_filters fs Examples.sample_db
            Examples.sample_movies Examples.sample_tvshows) = [].
Proof.
  split; [discriminate|].
  pose proof (no_genre_ids_gives_empty_table
                (mkFilterSpec (2010, 2020) Both ["Horror"%string] [] [])
                Examples.sample_db
                Examples.sample_movies Examples.sample_tvshows) as H.
  destruct H as [Hm Ht]; [discriminate|].
  split; [apply Hm|apply Ht]; reflexivity.
Defined.

(** C10.  A row whose rating is absent passes the rating step exactly when
    no rating is selected; with a non-empty selection it is dropped, and no
    row with an absent rating is left in either filtered table. *)
Theorem absent_rating_never_selected
  (fs : FilterSpec) (f : frame (row Z)) (i : Z) (r : row Z) :
  rating r = None ->
  (In (i, r) (rating_step fs f) <-> rating_filter fs = [] /\ In (i, r) f)
  /\ (rating_filter fs <> [] ->
      forall db movies tvshows,
        ~ In r (rows (fst (apply_filters fs db movies tvshows)))
        /\ ~ In r (rows (snd (apply_filters fs db movies tvshows)))).
Proof.
  intros Hnone.
  assert (Hstep : forall g j,
             In (j, r) (rating_step fs g) <-> rating_filter fs = [] /\ In (j, r) g).
  { intros g j. unfold rating_step.
    destruct (rating_filter fs) as [|x xs] eqn:E.
    - tauto.
    - rewrite FrameFacts.in_mask, Hnone. simpl.
      split; [intros [_ H]; discriminate | intros [H _]; discriminate]. }
  split; [apply Hstep|].
  intros Hne db movies tvshows.
  assert (Hrows : forall g, ~ In r (rows (rating_step fs g))).
  { intros g Hin. unfold rows in Hin. apply in_map_iff in Hin.
    destruct Hin as [[j r'] [Heq Hin]]. simpl in Heq. subst r'.
    apply Hstep in Hin. tauto. }
  unfold apply_filters, basic_filters, genre_block.
  assert (Hkeep : forall ids g,
             ~ In r (rows g) -> ~ In r (rows (keep_ids ids (reset_index g)))).
  { intros ids g Hg Hin. apply Hg. unfold rows in Hin.
    apply in_map_iff in Hin. destruct Hin as [[j r'] [Heq Hin]].
    simpl in Heq. subst r'.
    apply FilterFacts.keep_ids_subset in Hin.
    now apply FilterFacts.in_reset_index in Hin. }
  assert (Hreset : forall g : frame (row Z),
             ~ In r (rows g) -> ~ In r (rows (reset_index g))).
  { intros g Hg. now rewrite FrameFacts.rows_reset_index. }
  destruct (content_type fs); destruct (genre_filter fs); simpl;
    split; auto; try (apply Hkeep; auto); try (apply Hreset; auto).
Qed.

Lemma absent_rating_never_selected_witness :
  let fs := mkFilterSpec (2010, 2020) Both [] [] ["R"%string] in
  let c := mkRow 2016 None (Examples.title "C") in
  ~ In (2, c) (rating_step fs Examples.sample_movies)
  /\ ~ In c (rows (fst (apply_filters fs Examples.sample_db
                          Examples.sample_movies Examples.sample_tvshows))).
Proof.
  pose proof (absent_rating_never_selected
                (mkFilterSpec (2010, 2020) Both [] [] ["R"%string])
                Examples.sample_movies 2
                (mkRow 2016 None (Examples.title "C")) eq_refl) as [H1 H2].
  split.
  - intros Hin. apply H1 in Hin. destruct Hin as [Hnil _]. discriminate Hnil.
  - apply (H2 ltac:(discriminate) Examples.sample_db
              Examples.sample_movies Examples.sample_tvshows).
Defined.

(** ** Grouping by year and the outer merge *)

Module TrendFacts.

Import Netflix Count.

Lemma in_keys_count_key (k k' : Z) (g : list (Z * Z)) :
  In k' (map fst (count_key k g)) <-> k' = k \/ In k' (map fst g).
Proof.
  induction g as [|[k0 n] g IH]; simpl.
  - intuition congruence.
  - destruct (k <? k0) eqn:Hlt; simpl; [intuition congruence|].
    destruct (k =? k0) eqn:Heq; simpl.
    + apply Z.eqb_eq in Heq. subst k0. intuition congruence.
    + rewrite IH. intuition congruence.
Qed.

Lemma total_at_cons (k k0 n : Z) (g : list (Z * Z)) :
  total_at k ((k0, n) :: g)
  = (if k0 =? k then n else 0) + total_at k g.
Proof.
  unfold total_at, values_at. simpl. destruct (k0 =? k); reflexivity.
Qed.

Lemma total_at_count_key (k k' : Z) (g : list (Z * Z)) :
  total_at k' (count_key k g)
  = total_at k' g + (if k =? k' then 1 else 0).
Proof.
  induction g as [|[k0 n] g IH].
  - simpl. rewrite total_at_cons. unfold total_at. simpl.
    destruct (k =? k'); reflexivity.
  - simpl. destruct (k <? k0) eqn:Hlt.
    + rewrite (total_at_cons k' k 1). lia.
    + destruct (k =? k0) eqn:Heq.
      * apply Z.eqb_eq in Heq. subst k0. rewrite !total_at_cons.
        destruct (k =? k'); lia.
      * rewrite !total_at_cons, IH. lia.
Qed.

Lemma sorted_count_key (k : Z) (g : list (Z * Z)) :
  StronglySorted Z.lt (map fst g) ->
  StronglySorted Z.lt (map fst (count_key k g)).
Proof.
  induction g as [|[k0 n] g IH]; simpl; intros Hs.
  - repeat constructor.
  - apply StronglySorted_inv in Hs. destruct Hs as [Hs Hall].
    destruct (k <? k0) eqn:Hlt; simpl.
    + apply Z.ltb_lt in Hlt. constructor.
      * constructor; assumption.
      * constructor; [assumption|].
        eapply Forall_impl; [|exact Hall]. simpl. intros; lia.
    + destruct (k =? k0) eqn:Heq; simpl.
      * constructor; assumption.
      * apply Z.ltb_ge in Hlt. apply Z.eqb_neq in Heq.
        constructor; [auto|].
        apply Forall_forall. intros x Hx.
        apply in_keys_count_key in Hx. destruct Hx as [->|Hx]; [lia|].
        rewrite Forall_forall in Hall. auto.
Qed.

Lemma sorted_groupby_size (ks : list Z) :
  StronglySorted Z.lt (map fst (groupby_size ks)).
Proof.
  induction ks as [|k ks IH]; simpl; [constructor|].
  now apply sorted_count_key.
Qed.

Lemma in_keys_groupby_size (k : Z) (ks : list Z) :
  In k (map fst (groupby_size ks)) <-> In k ks.
Proof.
  induction ks as [|k0 ks IH]; simpl; [tauto|].
  rewrite in_keys_count_key, IH. intuition congruence.
Qed.

Lemma occurrences_cons (k k0 : Z) (ks : list Z) :
  occurrences k (k0 :: ks)
  = occurrences k ks + (if k0 =? k then 1 else 0).
Proof.
  unfold occurrences. simpl. rewrite (Z.eqb_sym k k0).
  destruct (k0 =? k); simpl List.length; lia.
Qed.

Lemma total_at_groupby_size (k : Z) (ks : list Z) :
  total_at k (groupby_size ks) = occurrences k ks.
Proof.
  induction ks as [|k0 ks IH]; simpl; [reflexivity|].
  now rewrite total_at_count_key, IH, occurrences_cons.
Qed.

Lemma occurrences_not_in (k : Z) (ks : list Z) :
  ~ In k ks -> occurrences k ks = 0.
Proof.
  induction ks as [|k0 ks IH]; intros Hn; [reflexivity|].
  rewrite occurrences_cons, IH by (simpl in Hn; tauto).
  destruct (k0 =? k) eqn:E; [|reflexivity].
  apply Z.eqb_eq in E. subst. simpl in Hn. tauto.
Qed.

Lemma occurrences_in (k : Z) (ks : list Z) :
  In k ks -> 0 < occurrences k ks.
Proof.
  induction ks as [|k0 ks IH]; simpl; [tauto|].
  rewrite occurrences_cons. intros [->|H].
  - rewrite Z.eqb_refl. unfold occurrences. lia.
  - specialize (IH H). destruct (k0 =? k); lia.
Qed.

Lemma sorted_lt_nodup (l : list Z) : StronglySorted Z.lt l -> NoDup l.
Proof.
  induction 1 as [|a l Hs IH Hall]; constructor; [|assumption].
  intros Hin. rewrite Forall_forall in Hall. specialize (Hall a Hin). lia.
Qed.

Lemma values_at_not_in (k : Z) (g : list (Z * Z)) :
  ~ In k (map fst g) -> values_at k g = [].
Proof.
  unfold values_at.
  induction g as [|[k0 n] g IH]; simpl; intros Hn; [reflexivity|].
  destruct (k0 =? k) eqn:E.
  - apply Z.eqb_eq in E. tauto.
  - apply IH. tauto.
Qed.

Lemma values_at_nodup (k : Z) (g : list (Z * Z)) :
  NoDup (map fst g) -> In k (map fst g) ->
  values_at k g = [total_at k g].
Proof.
  induction g as [|[k0 n] g IH]; simpl; intros Hnd Hin; [tauto|].
  apply NoDup_cons_iff in Hnd. destruct Hnd as [Hk0 Hnd].
  rewrite total_at_cons. unfold values_at. simpl.
  destruct (k0 =? k) eqn:E; simpl.
  - apply Z.eqb_eq in E. subst k0.
    pose proof (values_at_not_in k g Hk0) as Hv.
    unfold total_at. unfold values_at in Hv |- *. rewrite Hv. simpl.
    f_equal. lia.
  - apply Z.eqb_neq in E. destruct Hin as [Hin|Hin]; [congruence|].
    apply (IH Hnd Hin).
Qed.

Lemma values_at_groupby_size_in (k : Z) (ks : list Z) :
  In k ks -> values_at k (groupby_size ks) = [occurrences k ks].
Proof.
  intros Hin. rewrite <- total_at_groupby_size.
  apply values_at_nodup.
  - apply sorted_lt_nodup, sorted_groupby_size.
  - now apply in_keys_groupby_size.
Qed.

Lemma values_at_groupby_size_not_in (k : Z) (ks : list Z) :
  ~ In k ks -> values_at k (groupby_size ks) = [].
Proof.
  intros Hn. apply values_at_not_in. now rewrite in_keys_groupby_size.
Qed.

(** The row the merged and filled table holds for one year. *)
Lemma merged_row (k : Z) (a b : list Z) :
  In k a \/ In k b ->
  fillna 0 (merge_key k (values_at k (groupby_size a))
              (values_at k (groupby_size b)))
  = [(k, occurrences k a, occurrences k b)].
Proof.
  intros Hin.
  destruct (in_dec Z.eq_dec k a) as [Ha|Ha];
    destruct (in_dec Z.eq_dec k b) as [Hb|Hb].
  - now rewrite !values_at_groupby_size_in by assumption.
  - rewrite values_at_groupby_size_in, values_at_groupby_size_not_in
      by assumption.
    simpl. now rewrite (occurrences_not_in k b).
  - rewrite values_at_groupby_size_not_in, values_at_groupby_size_in
      by assumption.
    simpl. now rewrite (occurrences_not_in k a).
  - tauto.
Qed.

Lemma fillna_flat_map {X} (d : Z) (h : X -> list (Z * option Z * option Z))
  (l : list X) :
  fillna d (flat_map h l) = flat_map (fun x => fillna d (h x)) l.
Proof.
  unfold fillna. induction l as [|x l IH]; simpl; [reflexivity|].
  now rewrite map_app, IH.
Qed.

Lemma flat_map_single {X Y} (h : X -> list Y) (g : X -> Y) (l : list X) :
  (forall x, In x l -> h x = [g x]) -> flat_map h l = map g l.
Proof.
  induction l as [|x l IH]; simpl; intros H; [reflexivity|].
  rewrite (H x) by now left. simpl. f_equal. apply IH. auto.
Qed.

Lemma in_merged_keys (k : Z) (a b : list Z) :
  In k (merged_keys a b) <-> In k a \/ In k b.
Proof.
  unfold merged_keys.
  now rewrite in_keys_groupby_size, in_app_iff, !in_keys_groupby_size.
Qed.

Lemma year_wise_trends_closed_form (m t : Frame.frame (row Z)) :
  year_wise_trends m t
  = map (fun k => (k, rows_in_year k m, rows_in_year k t))
      (merged_keys (years m) (years t)).
Proof.
  unfold year_wise_trends, merge_outer. rewrite fillna_flat_map.
  apply flat_map_single. intros k Hk.
  apply in_merged_keys in Hk. now apply merged_row.
Qed.

End TrendFacts.

(** C7.  The yearly trend table has exactly one row for each release year
    found in the filtered movies or in the filtered TV shows, and no other
    row; the row of a year holds the number of movies and the number of
    TV shows of that year, so a year found on one side only is still
    there, with 0 on the other side. *)
Theorem yearly_trend_is_outer_join (movies_f tvshows_f : frame (row Z)) :
  let trend := year_wise_trends movies_f tvshows_f in
  NoDup (Count.trend_years trend)
  /\ (forall y,
         In y (Count.trend_years trend)
         <-> In y (years movies_f) \/ In y (years tvshows_f))
  /\ (forall y m t,
         In (y, m, t) trend
         <-> (In y (years movies_f) \/ In y (years tvshows_f))
             /\ m = Count.rows_in_year y movies_f
             /\ t = Count.rows_in_year y tvshows_f)
  /\ (forall y,
         In y (years tvshows_f) -> ~ In y (years movies_f) ->
         In (y, 0, Count.rows_in_year y tvshows_f) trend)
  /\ (forall y,
         In y (years movies_f) -> ~ In y (years tvshows_f) ->
         In (y, Count.rows_in_year y movies_f, 0) trend).
Proof.
  intros trend. subst trend.
  rewrite TrendFacts.year_wise_trends_closed_form.
  set (keys := Count.merged_keys (years movies_f) (years tvshows_f)).
  assert (Hkeys : forall y,
             In y keys <-> In y (years movies_f) \/ In y (years tvshows_f)).
  { intros y. apply TrendFacts.in_merged_keys. }
  assert (Hyears :
            Count.trend_years
              (map (fun k => (k, Count.rows_in_year k movies_f,
                              Count.rows_in_year k tvshows_f)) keys) = keys).
  { unfold Count.trend_years. rewrite map_map. simpl. apply map_id. }
  assert (Hrow : forall y m t,
             In (y, m, t)
               (map (fun k => (k, Count.rows_in_year k movies_f,
                               Count.rows_in_year k tvshows_f)) keys)
             <-> (In y (years movies_f) \/ In y (years tvshows_f))
                 /\ m = Count.rows_in_year y movies_f
                 /\ t = Count.rows_in_year y tvshows_f).
  { intros y m t. rewrite in_map_iff. split.
    - intros [k [[= <- <- <-] Hk]]. apply Hkeys in Hk. tauto.
    - intros [Hy [-> ->]]. exists y. split; [reflexivity|now apply Hkeys]. }
  rewrite Hyears. split; [|split; [|split; [|split]]].
  - apply TrendFacts.sorted_lt_nodup. unfold keys, Count.merged_keys.
    apply TrendFacts.sorted_groupby_size.
  - exact Hkeys.
  - exact Hrow.
  - intros y Ht Hm. apply Hrow. split; [tauto|]. split; [|reflexivity].
    unfold Count.rows_in_year. now rewrite TrendFacts.occurrences_not_in.
  - intros y Hm Ht. apply Hrow. split; [tauto|]. split; [reflexivity|].
    unfold Count.rows_in_year. now rewrite TrendFacts.occurrences_not_in.
Qed.

(** ** The popularity queries *)

Module SqlFacts.

Import Sql Count.

Lemma label_eqb_eq (a b : label) : label_eqb a b = true <-> a = b.
Proof.
  destruct a as [x|], b as [y|]; simpl; try (split; congruence).
  rewrite String.eqb_eq. split; congruence.
Qed.

Lemma label_eqb_refl (a : label) : label_eqb a a = true.
Proof. now apply label_eqb_eq. Qed.

Lemma label_eqb_neq (a b : label) : label_eqb a b = false <-> a <> b.
Proof.
  rewrite <- label_eqb_eq. destruct (label_eqb a b); split; congruence.
Qed.

Lemma label_eq_dec (a b : label) : {a = b} + {a <> b}.
Proof.
  destruct (label_eqb a b) eqn:E; [left|right].
  - now apply label_eqb_eq.
  - now apply label_eqb_neq.
Qed.

Lemma in_keys_bump (k k' : label) (g : list (label * Z)) :
  In k' (map fst (bump k g)) <-> k' = k \/ In k' (map fst g).
Proof.
  induction g as [|[k0 n] g IH]; simpl.
  - intuition congruence.
  - destruct (label_eqb k k0) eqn:E; simpl.
    + apply label_eqb_eq in E. subst k0. intuition congruence.
    + rewrite IH. intuition congruence.
Qed.

Lemma nodup_bump (k : label) (g : list (label * Z)) :
  NoDup (map fst g) -> NoDup (map fst (bump k g)).
Proof.
  induction g as [|[k0 n] g IH]; simpl; intros Hnd.
  - repeat constructor. tauto.
  - apply NoDup_cons_iff in Hnd. destruct Hnd as [Hk0 Hnd].
    destruct (label_eqb k k0) eqn:E; simpl.
    + now constructor.
    + apply label_eqb_neq in E. constructor; [|auto].
      rewrite in_keys_bump. intuition congruence.
Qed.

Lemma label_total_at_cons (l k : label) (n : Z) (g : list (label * Z)) :
  label_total_at l ((k, n) :: g)
  = (if label_eqb l k then n else 0) + label_total_at l g.
Proof.
  unfold label_total_at. simpl. destruct (label_eqb l k); reflexivity.
Qed.

Lemma label_total_at_bump (l k : label) (g : list (label * Z)) :
  label_total_at l (bump k g)
  = label_total_at l g + (if label_eqb l k then 1 else 0).
Proof.
  induction g as [|[k0 n] g IH]; simpl.
  - rewrite label_total_at_cons. unfold label_total_at. simpl. lia.
  - destruct (label_eqb k k0) eqn:E.
    + apply label_eqb_eq in E. subst k0. rewrite !label_total_at_cons.
      destruct (label_eqb l k); lia.
    + rewrite !label_total_at_cons, IH. lia.
Qed.

Lemma label_occurrences_cons (l k : label) (ls : list label) :
  label_occurrences l (k :: ls)
  = (if label_eqb l k then 1 else 0) + label_occurrences l ls.
Proof.
  unfold label_occurrences. simpl.
  destruct (label_eqb l k); simpl List.length; lia.
Qed.

Lemma label_occurrences_nonneg (l : label) (ls : list label) :
  0 <= label_occurrences l ls.
Proof. unfold label_occurrences. lia. Qed.

(** The three facts about the running groups, for any start. *)
Lemma fold_bump_invariant (labels : list label) :
  forall acc,
    NoDup (map fst acc) ->
    let g := fold_left (fun groups k => bump k groups) labels acc in
    NoDup (map fst g)
    /\ (forall l, In l (map fst g) <-> In l labels \/ In l (map fst acc))
    /\ (forall l, label_total_at l g
                  = label_total_at l acc + label_occurrences l labels).
Proof.
  induction labels as [|k labels IH]; intros acc Hnd; simpl.
  - split; [assumption|]. split; [tauto|].
    intros l. unfold label_occurrences. simpl. lia.
  - destruct (IH (bump k acc) (nodup_bump k acc Hnd)) as [H1 [H2 H3]].
    split; [exact H1|]. split.
    + intros l. rewrite H2, in_keys_bump. intuition congruence.
    + intros l. rewrite H3, label_total_at_bump, label_occurrences_cons.
      lia.
Qed.

Lemma label_total_at_not_in (l : label) (g : list (label * Z)) :
  ~ In l (map fst g) -> label_total_at l g = 0.
Proof.
  induction g as [|[k n] g IH]; simpl; intros Hn; [reflexivity|].
  rewrite label_total_at_cons, IH by tauto.
  destruct (label_eqb l k) eqn:E; [|reflexivity].
  apply label_eqb_eq in E. subst. tauto.
Qed.

Lemma label_total_at_in (l : label) (n : Z) (g : list (label * Z)) :
  NoDup (map fst g) -> In (l, n) g -> label_total_at l g = n.
Proof.
  induction g as [|[k m] g IH]; simpl; intros Hnd Hin; [tauto|].
  apply NoDup_cons_iff in Hnd. destruct Hnd as [Hk Hnd].
  rewrite label_total_at_cons. destruct Hin as [[= -> ->]|Hin].
  - rewrite label_eqb_refl, label_total_at_not_in by assumption. lia.
  - destruct (label_eqb l k) eqn:E.
    + apply label_eqb_eq in E. subst k. exfalso. apply Hk.
      apply in_map_iff. now exists (l, n).
    + rewrite (IH Hnd Hin). lia.
Qed.

Lemma in_keys_total (l : label) (g : list (label * Z)) :
  NoDup (map fst g) -> In l (map fst g) -> In (l, label_total_at l g) g.
Proof.
  intros Hnd Hin. apply in_map_iff in Hin.
  destruct Hin as [[k n] [Hk Hin]]. simpl in Hk. subst k.
  now rewrite (label_total_at_in l n g Hnd Hin).
Qed.

Lemma group_count_spec (labels : list label) :
  NoDup (map fst (group_count labels))
  /\ forall l n,
      In (l, n) (group_count labels)
      <-> In l labels /\ n = label_occurrences l labels.
Proof.
  destruct (fold_bump_invariant labels [] (NoDup_nil _)) as [H1 [H2 H3]].
  fold (group_count labels) in H1, H2, H3.
  split; [exact H1|]. intros l n. split.
  - intros Hin. split.
    + assert (Hk : In l (map fst (group_count labels))).
      { apply in_map_iff. now exists (l, n). }
      apply H2 in Hk. simpl in Hk. tauto.
    + rewrite <- (label_total_at_in l n _ H1 Hin), H3.
      unfold label_total_at. simpl. lia.
  - intros [Hin ->].
    assert (Hk : In l (map fst (group_count labels))).
    { apply H2. now left. }
    apply (in_keys_total l _ H1) in Hk. rewrite H3 in Hk.
    unfold label_total_at in Hk at 1. simpl in Hk. exact Hk.
Qed.

Lemma in_insert_desc (x y : label * Z) (l : list (label * Z)) :
  In y (insert_desc x l) <-> y = x \/ In y l.
Proof.
  induction l as [|h l IH]; simpl.
  - intuition congruence.
  - destruct (snd h <=? snd x); simpl; [intuition congruence|].
    rewrite IH. intuition congruence.
Qed.

Lemma in_order_by_total_desc (y : label * Z) (g : list (label * Z)) :
  In y (order_by_total_desc g) <-> In y g.
Proof.
  induction g as [|x g IH]; simpl; [tauto|].
  rewrite in_insert_desc, IH. intuition congruence.
Qed.

Lemma keys_insert_desc_nodup (x : label * Z) (l : list (label * Z)) :
  ~ In (fst x) (map fst l) -> NoDup (map fst l) ->
  NoDup (map fst (insert_desc x l)).
Proof.
  induction l as [|h l IH]; simpl; intros Hx Hnd.
  - repeat constructor. tauto.
  - destruct (snd h <=? snd x); simpl.
    + constructor; [simpl; tauto|assumption].
    + apply NoDup_cons_iff in Hnd. destruct Hnd as [Hh Hnd].
      constructor; [|apply IH; tauto].
      intros Hin. apply in_map_iff in Hin.
      destruct Hin as [y [Hy Hin]]. apply in_insert_desc in Hin.
      destruct Hin as [->|Hin]; [apply Hx; left; now symmetry|].
      apply Hh. apply in_map_iff. now exists y.
Qed.

Lemma keys_order_by_total_desc_nodup (g : list (label * Z)) :
  NoDup (map fst g) -> NoDup (map fst (order_by_total_desc g)).
Proof.
  induction g as [|x g IH]; simpl; intros Hnd; [constructor|].
  apply NoDup_cons_iff in Hnd. destruct Hnd as [Hx Hnd].
  apply keys_insert_desc_nodup; [|auto].
  intros Hin. apply Hx. apply in_map_iff in Hin.
  destruct Hin as [y [Hy Hin]].
  apply (proj1 (in_order_by_total_desc y g)) in Hin.
  apply in_map_iff. now exists y.
Qed.

Lemma sorted_insert_desc (x : label * Z) (l : list (label * Z)) :
  StronglySorted total_ge l -> StronglySorted total_ge (insert_desc x l).
Proof.
  induction l as [|h l IH]; simpl; intros Hs.
  - repeat constructor.
  - pose proof (StronglySorted_inv Hs) as [Hs' Hall].
    destruct (snd h <=? snd x) eqn:E.
    + apply Z.leb_le in E. constructor; [assumption|].
      constructor; [exact E|].
      eapply Forall_impl; [|exact Hall]. unfold total_ge. intros; lia.
    + apply Z.leb_gt in E. constructor; [auto|].
      apply Forall_forall. intros y Hy. apply in_insert_desc in Hy.
      destruct Hy as [->|Hy]; [unfold total_ge; lia|].
      rewrite Forall_forall in Hall. auto.
Qed.

Lemma sorted_order_by_total_desc (g : list (label * Z)) :
  StronglySorted total_ge (order_by_total_desc g).
Proof.
  induction g as [|x g IH]; simpl; [constructor|].
  now apply sorted_insert_desc.
Qed.

Lemma select_label_totals_spec (labels : list label) :
  popularity_table labels (select_label_totals labels).
Proof.
  unfold popularity_table, select_label_totals.
  destruct (group_count_spec labels) as [Hnd Hin].
  split; [apply sorted_order_by_total_desc|].
  split; [now apply keys_order_by_total_desc_nodup|].
  intros l n. now rewrite in_order_by_total_desc.
Qed.

Lemma forall_firstn {X} (P : X -> Prop) (n : nat) (l : list X) :
  Forall P l -> Forall P (firstn n l).
Proof.
  intros H. rewrite Forall_forall in *. intros x Hx.
  apply H. rewrite <- (firstn_skipn n l). apply in_or_app. now left.
Qed.

Lemma sorted_firstn {X} (R : X -> X -> Prop) (n : nat) (l : list X) :
  StronglySorted R l -> StronglySorted R (firstn n l).
Proof.
  revert n. induction l as [|x l IH]; intros n Hs.
  - now rewrite firstn_nil.
  - destruct n as [|n]; simpl; [constructor|].
    apply StronglySorted_inv in Hs. destruct Hs as [Hs Hall].
    constructor; [auto|now apply forall_firstn].
Qed.

Lemma head10_top10 (labels : list label) :
  top10_of (select_label_totals labels)
    (Netflix.head10 (select_label_totals labels)).
Proof.
  unfold top10_of, Netflix.head10. split; [reflexivity|]. split.
  - apply firstn_le_length.
  - apply sorted_firstn. apply select_label_totals_spec.
Qed.

End SqlFacts.

(** C8.  The genre and country popularity tables are the group counts of
    the whole association tables, largest total first, and each chart
    shows the first ten rows of its table.  They do not depend on the
    sidebar selection: two runs on the same database give the same four
    charts (or fail alike) whatever the two selections are, so in
    particular when they differ in year range, content type or ratings. *)
Theorem popularity_ignores_filters (db : Database) (fs1 fs2 : FilterSpec) :
  Py.fmap popularity (dashboard fs1 db) = Py.fmap popularity (dashboard fs2 db)
  /\ Py.fmap popularity (dashboard fs1 db)
     = Py.fmap (fun _ => (head10 (load_movie_genres db),
                          head10 (load_tv_genres db),
                          head10 (load_movie_countries db),
                          head10 (load_tv_countries db)))
         (dashboard fs1 db)
  /\ Count.popularity_table (map genre (tbl_movie_genres db))
       (load_movie_genres db)
  /\ Count.popularity_table (map genre (tbl_tvshow_genres db))
       (load_tv_genres db)
  /\ Count.popularity_table (map country (tbl_movie_countries db))
       (load_movie_countries db)
  /\ Count.popularity_table (map country (tbl_tvshows_countries db))
       (load_tv_countries db)
  /\ Count.top10_of (load_movie_genres db) (head10 (load_movie_genres db))
  /\ Count.top10_of (load_tv_genres db) (head10 (load_tv_genres db))
  /\ Count.top10_of (load_movie_countries db) (head10 (load_movie_countries db))
  /\ Count.top10_of (load_tv_countries db) (head10 (load_tv_countries db)).
Proof.
  assert (Hpop : forall fs,
             Py.fmap popularity (dashboard fs db)
             = Py.fmap (fun _ => (head10 (load_movie_genres db),
                                  head10 (load_tv_genres db),
                                  head10 (load_movie_countries db),
                                  head10 (load_tv_countries db)))
                 (data_cleaning (load_movies db) (load_tvshows db))).
  { intros fs. unfold dashboard.
    destruct (data_cleaning (load_movies db) (load_tvshows db)) as [e|[m t]];
      simpl; [reflexivity|].
    destruct (apply_filters fs db m t) as [mf tf]. reflexivity. }
  split; [now rewrite !Hpop|].
  split.
  { rewrite Hpop. unfold dashboard.
    destruct (data_cleaning (load_movies db) (load_tvshows db)) as [e|[m t]];
      simpl; [reflexivity|].
    destruct (apply_filters fs1 db m t) as [mf tf]. reflexivity. }
  repeat (split; [ first [ apply SqlFacts.select_label_totals_spec
                         | apply SqlFacts.head10_top10 ] | ]).
  apply SqlFacts.head10_top10.
Qed.

(** ** The cleaning step against its specification *)

Module CleaningFacts.

Import Py Frame Netflix Cell.















Lemma convertible_null : convertible CNull.
Proof. intros Hn. discriminate Hn. Qed.

Lemma ascii_numeric_is_decimal (c : ascii) :
  is_ascii c = true -> isnumeric_char c = isdecimal_char c.
Proof.
  destruct c as [[|] [|] [|] [|] [|] [|] [|] [|]];
    try reflexivity; discriminate.
Qed.

Lemma ascii_isnumeric_isdecimal (s : string) :
  all_chars is_ascii s = true -> isnumeric s = isdecimal s.
Proof.
  destruct s as [|c s]; [reflexivity|].
  unfold isdecimal, isnumeric. generalize (String c s). clear c s.
  induction s as [|c s IH]; simpl; [reflexivity|].
  rewrite andb_true_iff. intros [Hc Hs].
  now rewrite (ascii_numeric_is_decimal c Hc), (IH Hs).
Qed.

Lemma digit_value_range (c : ascii) :
  isdecimal_char c = true -> 0 <= digit_value c <= 9.
Proof.
  unfold isdecimal_char, digit_value. rewrite andb_true_iff.
  rewrite !N.leb_le. lia.
Qed.

Lemma decimal_value_range (s : string) :
  all_chars isdecimal_char s = true ->
  forall acc, 0 <= acc ->
    acc * 10 ^ Z.of_nat (String.length s) <= decimal_value acc s
    /\ decimal_value acc s < (acc + 1) * 10 ^ Z.of_nat (String.length s).
Proof.
  induction s as [|c s IH]; intros Hs acc Hacc.
  - simpl. lia.
  - simpl in Hs. apply andb_true_iff in Hs. destruct Hs as [Hc Hs].
    pose proof (digit_value_range c Hc) as Hd.
    cbn [String.length decimal_value].
    rewrite Nat2Z.inj_succ, Z.pow_succ_r by lia.
    specialize (IH Hs (10 * acc + digit_value c) ltac:(lia)).
    assert (Hp : 0 < 10 ^ Z.of_nat (String.length s))
      by (apply Z.pow_pos_nonneg; lia).
    nia.
Qed.

Lemma convertible_text (s : string) :
  all_chars is_ascii s = true -> (String.length s <= 18)%nat ->
  convertible (CText s).
Proof.
  intros Ha Hlen Hn. simpl in *.
  rewrite (ascii_isnumeric_isdecimal s Ha) in Hn. split; [exact Hn|].
  assert (Hd : all_chars isdecimal_char s = true).
  { destruct s; [discriminate|exact Hn]. }
  destruct (decimal_value_range s Hd 0 ltac:(lia)) as [Hlo Hhi].
  assert (Hpow : 10 ^ Z.of_nat (String.length s) <= 10 ^ 18).
  { apply Z.pow_le_mono_r; lia. }
  unfold int64_min, int64_max. lia.
Qed.

End CleaningFacts.

(** ** The filter block against its specification *)

Module EngineFacts.

Import Py Frame Netflix FrameFacts.
Import Spec (year_and_rating).

Lemma filter_twice {X} (p q : X -> bool) (l : list X) :
  filter q (filter p l) = filter (fun x => p x && q x) l.
Proof.
  induction l as [|x l IH]; simpl; [reflexivity|].
  destruct (p x); simpl; [destruct (q x)|]; now rewrite IH.
Qed.

Lemma filter_none {X} (l : list X) : filter (fun _ => false) l = [].
Proof. induction l; simpl; auto. Qed.

Lemma spec_rows_without_genres c fs links (f : frame (row Z)) :
  genre_filter fs = [] ->
  rows (Spec.filter_engine c fs links f)
  = filter (fun r => year_and_rating fs r
                     && Spec.content_type_matches (content_type fs) c)
      (rows f).
Proof.
  intros Hg. unfold Spec.filter_engine. rewrite Hg. simpl.
  rewrite <- (rows_mask (fun r => year_and_rating fs r
                          && Spec.content_type_matches (content_type fs) c)).
  unfold mask. f_equal. apply filter_ext. intros [i r]. simpl.
  now rewrite andb_true_r.
Qed.

Lemma rows_rating_year (fs : FilterSpec) (f : frame (row Z)) :
  rows (rating_step fs (year_step fs f))
  = filter (year_and_rating fs) (rows f).
Proof.
  unfold rating_step, year_step, year_and_rating, Spec.rating_matches.
  destruct (rating_filter fs) as [|x xs].
  - rewrite rows_mask. apply filter_ext. intros r. now rewrite andb_true_r.
  - now rewrite !rows_mask, filter_twice.
Qed.

(** With no genre selected the script returns, for both tables, the rows
    the specification asks for. *)
Lemma apply_filters_without_genres fs db (movies tvshows : frame (row Z)) :
  genre_filter fs = [] ->
  rows (fst (apply_filters fs db movies tvshows))
  = rows (Spec.filter_engine Spec.MovieTable fs (tbl_movie_genres db) movies)
  /\ rows (snd (apply_filters fs db movies tvshows))
     = rows (Spec.filter_engine Spec.TVShowTable fs (tbl_tvshow_genres db)
               tvshows).
Proof.
  intros Hg. rewrite !spec_rows_without_genres by assumption.
  unfold apply_filters, basic_filters, genre_block. rewrite Hg.
  destruct (content_type fs); simpl;
    rewrite ?rows_reset_index, ?rows_rating_year; split;
    try (apply filter_ext; intros r; now rewrite andb_true_r);
    try (symmetry; erewrite filter_ext;
         [apply filter_none | intros r; apply andb_false_r]).
Qed.

Lemma in_range_index {A} (start : Z) (l : list A) (i : Z) (r : A) :
  In (i, r) (range_index start l)
  <-> start <= i /\ nth_error l (Z.to_nat (i - start)) = Some r.
Proof.
  revert start. induction l as [|a l IH]; intros start; simpl.
  - split; [tauto|]. intros [_ H]. now destruct (Z.to_nat (i - start)).
  - rewrite IH. split.
    + intros [[= <- <-]|[Hle Hnth]].
      * split; [lia|]. now rewrite Z.sub_diag.
      * split; [lia|].
        replace (Z.to_nat (i - start)) with (S (Z.to_nat (i - (start + 1))))
          by lia.
        exact Hnth.
    + intros [Hle Hnth]. destruct (Z.eq_dec i start) as [->|Hne].
      * left. rewrite Z.sub_diag in Hnth. simpl in Hnth. congruence.
      * right. split; [lia|].
        replace (Z.to_nat (i - start)) with (S (Z.to_nat (i - (start + 1))))
          in Hnth by lia.
        exact Hnth.
Qed.

Lemma rows_fst_basic_filters fs (movies tvshows : frame (row Z)) :
  fst (basic_filters fs movies tvshows)
  = range_index 0 (rows (fst (basic_filters fs movies tvshows))).
Proof.
  unfold basic_filters.
  destruct (content_type fs); cbn [fst]; unfold reset_index, of_rows;
    now rewrite rows_range_index.
Qed.

(** What the genre filter of the script keeps: the row at position [i] of
    the table left by the year, rating and content type steps, for every
    [i] the genre query returned. *)
Lemma genre_filter_by_position fs db (movies tvshows : frame (row Z)) i r :
  genre_filter fs <> [] ->
  In (i, r) (fst (apply_filters fs db movies tvshows))
  <-> In i (select_rowids (genre_filter fs) (tbl_movie_genres db))
      /\ 0 <= i
      /\ nth_error (rows (fst (basic_filters fs movies tvshows))) (Z.to_nat i)
         = Some r.
Proof.
  intros Hg. unfold apply_filters.
  pose proof (rows_fst_basic_filters fs movies tvshows) as Hrows.
  destruct (basic_filters fs movies tvshows) as [m t]. simpl in Hrows |- *.
  unfold genre_block. destruct (genre_filter fs) as [|g gs]; [contradiction|].
  set (ids := select_rowids (g :: gs) (tbl_movie_genres db)).
  simpl. unfold keep_ids.
  assert (Hin : In (i, r) m
                <-> 0 <= i /\ nth_error (rows m) (Z.to_nat i) = Some r).
  { rewrite Hrows at 1. rewrite in_range_index. now rewrite Z.sub_0_r. }
  destruct ids as [|z ids'] eqn:E.
  - simpl. tauto.
  - unfold index_isin. rewrite filter_In, Hin, existsb_exists. simpl fst.
    split.
    + intros [H [x [Hx Heq]]]. apply Z.eqb_eq in Heq. subst x. tauto.
    + intros [H1 H2]. split; [exact H2|].
      exists i. split; [exact H1|apply Z.eqb_refl].
Qed.

End EngineFacts.

(** C3.  The script departs from the claim on a year that is numeric but
    not made of digits.  For a movies table whose only row has the year
    U+00BD (vulgar fraction one half), [str.isnumeric] holds although the
    text does not consist of digits, the mask keeps the row, and the
    conversion to integer raises ValueError, for the table and for the
    whole page; the normalizer of the specification drops the row and
    returns the empty table. *)
Theorem cleaning_raises_on_vulgar_fraction :
  isnumeric Examples.one_half = true
  /\ Spec.solely_digits Examples.one_half = false
  /\ isnumeric_mask Examples.half_year_movies = Examples.half_year_movies
  /\ clean_table Examples.half_year_movies = inl ValueError
  /\ Spec.year_normalizer Examples.half_year_movies = []
  /\ forall fs tvshows movie_genres tv_genres movie_countries tv_countries,
      dashboard fs
        (mkDatabase [mkRow (CText Examples.one_half) None (Examples.title "H")]
           tvshows movie_genres tv_genres movie_countries tv_countries)
      = inl ValueError.
Proof.
  repeat split; reflexivity.
Qed.

(** C1.  The script departs from the claim when genres are selected.  On
    the sample database the only movie linked to Dramas is the one at
    position 1 of the movies table (B, 2015), which passes the year range
    2010 to 2020; the specification's filter returns B.  The script numbers
    the rows again after the year step, so B gets position 0 and C (2016,
    linked to Comedies only) gets position 1: it returns C and not B. *)
Theorem genre_filter_reads_positions_after_filtering :
  data_cleaning (load_movies Examples.sample_db)
    (load_tvshows Examples.sample_db)
  = inr (Examples.sample_movies, Examples.sample_tvshows)
  /\ select_rowids (genre_filter Examples.dramas_2010_2020)
       (tbl_movie_genres Examples.sample_db) = [1]
  /\ rows (Spec.filter_engine Spec.MovieTable Examples.dramas_2010_2020
             (tbl_movie_genres Examples.sample_db) Examples.sample_movies)
     = [mkRow 2015 (Some "R"%string) (Examples.title "B")]
  /\ rows (fst (apply_filters Examples.dramas_2010_2020 Examples.sample_db
                  Examples.sample_movies Examples.sample_tvshows))
     = [mkRow 2016 None (Examples.title "C")].
Proof.
  repeat split; reflexivity.
Qed.

(** * Further properties of the script *)

(** ** Cleaning *)

Module CleaningMore.

Import Py Frame Netflix Cell CleaningFacts.










End CleaningMore.





(** ** Year bounds *)

Module BoundsFacts.

Import Sidebar.

Lemma fold_min_spec (l : list Z) :
  forall x,
    In (fold_left Z.min l x) (x :: l)
    /\ forall y, In y (x :: l) -> fold_left Z.min l x <= y.
Proof.
  induction l as [|a l IH]; intros x; simpl.
  - split; [now left|]. intros y [<-|[]]. lia.
  - destruct (IH (Z.min x a)) as [Hin Hle]. split.
    + destruct Hin as [Hin|Hin]; [|now right; right].
      rewrite <- Hin. destruct (Z.min_spec x a) as [[_ ->]|[_ ->]]; tauto.
    + intros y Hy.
      assert (Hm : fold_left Z.min l (Z.min x a) <= Z.min x a)
        by (apply Hle; now left).
      destruct Hy as [<-|[<-|Hy]]; [lia|lia|].
      apply Hle. now right.
Qed.

Lemma fold_max_spec (l : list Z) :
  forall x,
    In (fold_left Z.max l x) (x :: l)
    /\ forall y, In y (x :: l) -> y <= fold_left Z.max l x.
Proof.
  induction l as [|a l IH]; intros x; simpl.
  - split; [now left|]. intros y [<-|[]]. lia.
  - destruct (IH (Z.max x a)) as [Hin Hle]. split.
    + destruct Hin as [Hin|Hin]; [|now right; right].
      rewrite <- Hin. destruct (Z.max_spec x a) as [[_ ->]|[_ ->]]; tauto.
    + intros y Hy.
      assert (Hm : Z.max x a <= fold_left Z.max l (Z.max x a))
        by (apply Hle; now left).
      destruct Hy as [<-|[<-|Hy]]; [lia|lia|].
      apply Hle. now right.
Qed.

Lemma series_min_spec (col : list Z) :
  col <> [] ->
  exists lo, series_min col = Int lo /\ In lo col
             /\ forall y, In y col -> lo <= y.
Proof.
  destruct col as [|x col]; [congruence|]. intros _.
  exists (fold_left Z.min col x). split; [reflexivity|].
  apply fold_min_spec.
Qed.

Lemma series_max_spec (col : list Z) :
  col <> [] ->
  exists hi, series_max col = Int hi /\ In hi col
             /\ forall y, In y col -> y <= hi.
Proof.
  destruct col as [|x col]; [congruence|]. intros _.
  exists (fold_left Z.max col x). split; [reflexivity|].
  apply fold_max_spec.
Qed.

End BoundsFacts.

(** X4.  When the cleaned movies table has a row, the two year bounds are
    integers, each is the year of some row, and the year of every row of
    both tables lies between them.  When the cleaned movies table has no
    row, both bounds are NaN, even if there are TV shows. *)
Theorem year_bounds_cover_the_data (movies tvshows : frame (row Z)) :
  (movies <> [] ->
   exists lo hi,
     Sidebar.min_year movies tvshows = Sidebar.Int lo
     /\ Sidebar.max_year movies tvshows = Sidebar.Int hi
     /\ (In lo (years movies) \/ In lo (years tvshows))
     /\ (In hi (years movies) \/ In hi (years tvshows))
     /\ forall y, In y (years movies) \/ In y (years tvshows) -> lo <= y <= hi)
  /\ (movies = [] ->
      Sidebar.min_year movies tvshows = Sidebar.NaN
      /\ Sidebar.max_year movies tvshows = Sidebar.NaN).
Proof.
  split.
  - intros Hm.
    assert (Hym : years movies <> []).
    { destruct movies; [congruence|discriminate]. }
    destruct (BoundsFacts.series_min_spec _ Hym) as [lo1 [El1 [Hi1 Hl1]]].
    destruct (BoundsFacts.series_max_spec _ Hym) as [hi1 [Eh1 [Hi2 Hl2]]].
    unfold Sidebar.min_year, Sidebar.max_year. rewrite El1, Eh1.
    destruct (years tvshows) as [|y0 yt] eqn:Et.
    + exists lo1, hi1. simpl. repeat split; try tauto.
      * destruct H as [H|[]]. now apply Hl1.
      * destruct H as [H|[]]. now apply Hl2.
    + assert (Hyt : y0 :: yt <> []) by discriminate.
      destruct (BoundsFacts.series_min_spec _ Hyt) as [lo2 [El2 [Hj1 Hk1]]].
      destruct (BoundsFacts.series_max_spec _ Hyt) as [hi2 [Eh2 [Hj2 Hk2]]].
      rewrite El2, Eh2.
      unfold Sidebar.py_min, Sidebar.py_max, Sidebar.num_ltb.
      exists (if lo2 <? lo1 then lo2 else lo1),
             (if hi1 <? hi2 then hi2 else hi1).
      split; [now destruct (lo2 <? lo1)|].
      split; [now destruct (hi1 <? hi2)|].
      split; [destruct (lo2 <? lo1); tauto|].
      split; [destruct (hi1 <? hi2); tauto|].
      intros y Hy.
      destruct (Z.ltb_spec lo2 lo1), (Z.ltb_spec hi1 hi2);
        destruct Hy as [Hy|Hy];
        try (specialize (Hl1 y Hy); specialize (Hl2 y Hy); lia);
        specialize (Hk1 y Hy); specialize (Hk2 y Hy); lia.
  - intros ->. unfold Sidebar.min_year, Sidebar.max_year. simpl.
    split.
    + now destruct (Sidebar.series_min (years tvshows)).
    + now destruct (Sidebar.series_max (years tvshows)).
Qed.

Lemma year_bounds_cover_the_data_witness :
  exists lo hi,
    Sidebar.min_year Examples.sample_movies Examples.sample_tvshows
    = Sidebar.Int lo
    /\ Sidebar.max_year Examples.sample_movies Examples.sample_tvshows
       = Sidebar.Int hi
    /\ lo <= 2015 <= hi.
Proof.
  destruct (proj1 (year_bounds_cover_the_data
                     Examples.sample_movies Examples.sample_tvshows)
              ltac:(discriminate))
    as [lo [hi [Hlo [Hhi [_ [_ Hall]]]]]].
  exists lo, hi. split; [exact Hlo|]. split; [exact Hhi|].
  apply Hall. left. simpl. tauto.
Defined.

(** ** The filter block *)

Module FilterMore.

Import Py Frame Netflix FrameFacts.

(** The table the year, rating and content type steps leave, before it is
    renumbered. *)
Lemma fst_basic_filters fs (movies tvshows : frame (row Z)) :
  fst (basic_filters fs movies tvshows)
  = reset_index (match content_type fs with
                 | TV_Shows => []
                 | _ => rating_step fs (year_step fs movies)
                 end).
Proof. unfold basic_filters. now destruct (content_type fs). Qed.

Lemma snd_basic_filters fs (movies tvshows : frame (row Z)) :
  snd (basic_filters fs movies tvshows)
  = reset_index (match content_type fs with
                 | Movies => []
                 | _ => rating_step fs (year_step fs tvshows)
                 end).
Proof. unfold basic_filters. now destruct (content_type fs). Qed.

Lemma fst_apply_filters fs db (movies tvshows : frame (row Z)) :
  fst (apply_filters fs db movies tvshows)
  = match genre_filter fs with
    | [] => fst (basic_filters fs movies tvshows)
    | _ :: _ =>
        keep_ids (select_rowids (genre_filter fs) (tbl_movie_genres db))
          (fst (basic_filters fs movies tvshows))
    end.
Proof.
  unfold apply_filters.
  destruct (basic_filters fs movies tvshows) as [m t].
  unfold genre_block. now destruct (genre_filter fs).
Qed.

Lemma snd_apply_filters fs db (movies tvshows : frame (row Z)) :
  snd (apply_filters fs db movies tvshows)
  = match genre_filter fs with
    | [] => snd (basic_filters fs movies tvshows)
    | _ :: _ =>
        keep_ids (select_rowids (genre_filter fs) (tbl_tvshow_genres db))
          (snd (basic_filters fs movies tvshows))
    end.
Proof.
  unfold apply_filters.
  destruct (basic_filters fs movies tvshows) as [m t].
  unfold genre_block. now destruct (genre_filter fs).
Qed.

Lemma length_range_index {A} (start : Z) (l : list A) :
  List.length (range_index start l) = List.length l.
Proof.
  revert start. induction l as [|a l IH]; intros start; simpl; auto.
Qed.

Lemma length_reset_index {A} (f : frame A) :
  List.length (reset_index f) = List.length f.
Proof.
  unfold reset_index, of_rows, rows.
  now rewrite length_range_index, length_map.
Qed.

Lemma length_filter_le {A} (p : A -> bool) (l : list A) :
  (List.length (filter p l) <= List.length l)%nat.
Proof.
  induction l as [|a l IH]; simpl; [lia|]. destruct (p a); simpl; lia.
Qed.

Lemma length_keep_ids ids (f : frame (row Z)) :
  (List.length (keep_ids ids f) <= List.length f)%nat.
Proof.
  destruct ids; simpl; [lia|]. apply length_filter_le.
Qed.

Lemma length_rating_step fs (f : frame (row Z)) :
  (List.length (rating_step fs f) <= List.length f)%nat.
Proof.
  unfold rating_step. destruct (rating_filter fs); [lia|].
  apply length_filter_le.
Qed.

Lemma length_year_step fs (f : frame (row Z)) :
  (List.length (year_step fs f) <= List.length f)%nat.
Proof. apply length_filter_le. Qed.

Lemma in_rows_keep_ids ids (f : frame (row Z)) r :
  In r (rows (keep_ids ids f)) -> In r (rows f).
Proof.
  unfold rows. rewrite !in_map_iff. intros [[i r'] [Heq Hin]].
  exists (i, r'). split; [exact Heq|].
  now apply (FilterFacts.keep_ids_subset ids f).
Qed.

(** What a row that went through the year and rating steps satisfies. *)
Lemma in_rows_rating_year fs (f : frame (row Z)) r :
  In r (rows (rating_step fs (year_step fs f)))
  <-> In r (rows f)
      /\ between (year_range fs) (release_year r) = true
      /\ (rating_filter fs = []
          \/ isin (rating_filter fs) (rating r) = true).
Proof.
  rewrite EngineFacts.rows_rating_year, filter_In.
  unfold Spec.year_and_rating, Spec.rating_matches.
  rewrite andb_true_iff.
  destruct (rating_filter fs) as [|x xs]; [tauto|].
  split; [tauto|].
  intros [H1 [H2 [H3|H3]]]; [discriminate|tauto].
Qed.

Lemma filter_incl_length {A} (p q : A -> bool) (l : list A) :
  (forall a, In a l -> p a = true -> q a = true) ->
  (List.length (filter p l) <= List.length (filter q l))%nat.
Proof.
  induction l as [|a l IH]; intros H; simpl; [lia|].
  assert (IH' : (List.length (filter p l) <= List.length (filter q l))%nat).
  { apply IH. intros b Hb. apply H. now right. }
  destruct (p a) eqn:Hp.
  - rewrite (H a (or_introl eq_refl) Hp). simpl. lia.
  - destruct (q a); simpl; lia.
Qed.

Lemma in_select_rowids genres links i :
  In i (select_rowids genres links)
  <-> exists l g,
      In l links /\ rowid l = i /\ genre l = Some g /\ In g genres.
Proof.
  unfold select_rowids. rewrite nodup_In, in_map_iff. split.
  - intros [l [Hi Hin]]. apply filter_In in Hin. destruct Hin as [Hin Hp].
    unfold Sql.in_params in Hp. destruct (genre l) as [g|] eqn:Eg;
      [|discriminate].
    apply existsb_exists in Hp. destruct Hp as [g' [Hg' Heq]].
    apply String.eqb_eq in Heq. subst g'. exists l, g. tauto.
  - intros [l [g [Hin [Hi [Eg Hg]]]]]. exists l. split; [exact Hi|].
    apply filter_In. split; [exact Hin|].
    unfold Sql.in_params. rewrite Eg. apply existsb_exists.
    exists g. split; [exact Hg|apply String.eqb_refl].
Qed.

Lemma in_keep_ids_reset ids (base : frame (row Z)) i r :
  ids <> [] ->
  In (i, r) (keep_ids ids (reset_index base))
  <-> In i ids /\ 0 <= i /\ nth_error (rows base) (Z.to_nat i) = Some r.
Proof.
  intros Hne. destruct ids as [|z ids']; [congruence|].
  unfold keep_ids, index_isin. rewrite filter_In. simpl fst.
  unfold reset_index, of_rows.
  rewrite EngineFacts.in_range_index, Z.sub_0_r, existsb_exists. split.
  - intros [H [x [Hx Heq]]]. apply Z.eqb_eq in Heq. subst x. tauto.
  - intros [H1 H2]. split; [exact H2|].
    exists i. split; [exact H1|apply Z.eqb_refl].
Qed.

End FilterMore.

(** X5.  Whatever is selected, genres included, every row of a filtered
    table is a row of the cleaned table it was taken from, its year lies
    in the selected range, and its rating is one of the selected ratings
    when any is selected; a row of the filtered movies table is there only
    if the content type is not TV Shows, a row of the filtered TV shows
    table only if it is not Movies.  Neither filtered table has more rows
    than its cleaned table. *)
Theorem filtered_rows_pass_year_and_rating
  (fs : FilterSpec) (db : Database) (movies tvshows : frame (row Z)) :
  (forall r,
      In r (rows (fst (apply_filters fs db movies tvshows))) ->
      In r (rows movies)
      /\ fst (year_range fs) <= release_year r <= snd (year_range fs)
      /\ (rating_filter fs = []
          \/ exists s, rating r = Some s /\ In s (rating_filter fs))
      /\ content_type fs <> TV_Shows)
  /\ (forall r,
         In r (rows (snd (apply_filters fs db movies tvshows))) ->
         In r (rows tvshows)
         /\ fst (year_range fs) <= release_year r <= snd (year_range fs)
         /\ (rating_filter fs = []
             \/ exists s, rating r = Some s /\ In s (rating_filter fs))
         /\ content_type fs <> Movies)
  /\ len (fst (apply_filters fs db movies tvshows)) <= len movies
  /\ len (snd (apply_filters fs db movies tvshows)) <= len tvshows.
Proof.
  assert (Hbase : forall (f : frame (row Z)) r,
             In r (rows (rating_step fs (year_step fs f))) ->
             In r (rows f)
             /\ fst (year_range fs) <= release_year r <= snd (year_range fs)
             /\ (rating_filter fs = []
                 \/ exists s, rating r = Some s /\ In s (rating_filter fs))).
  { intros f r Hin. apply FilterMore.in_rows_rating_year in Hin.
    destruct Hin as [H1 [H2 H3]]. split; [exact H1|].
    split; [now apply FilterFacts.between_spec|].
    destruct H3 as [H3|H3]; [now left|right].
    now apply FilterFacts.isin_spec. }
  assert (Hlen : forall f : frame (row Z),
             (List.length (rating_step fs (year_step fs f))
              <= List.length f)%nat).
  { intros f. etransitivity; [apply FilterMore.length_rating_step|].
    apply FilterMore.length_year_step. }
  rewrite FilterMore.fst_apply_filters, FilterMore.snd_apply_filters.
  rewrite FilterMore.fst_basic_filters, FilterMore.snd_basic_filters.
  split; [|split; [|split]].
  - intros r Hin.
    assert (Hin' : In r (rows (match content_type fs with
                               | TV_Shows => []
                               | _ => rating_step fs (year_step fs movies)
                               end))).
    { rewrite <- FrameFacts.rows_reset_index.
      destruct (genre_filter fs); [exact Hin|].
      now apply FilterMore.in_rows_keep_ids in Hin. }
    destruct (content_type fs); simpl in Hin'; try contradiction;
      destruct (Hbase _ _ Hin') as [H1 [H2 H3]];
      repeat split; try tauto; discriminate.
  - intros r Hin.
    assert (Hin' : In r (rows (match content_type fs with
                               | Movies => []
                               | _ => rating_step fs (year_step fs tvshows)
                               end))).
    { rewrite <- FrameFacts.rows_reset_index.
      destruct (genre_filter fs); [exact Hin|].
      now apply FilterMore.in_rows_keep_ids in Hin. }
    destruct (content_type fs); simpl in Hin'; try contradiction;
      destruct (Hbase _ _ Hin') as [H1 [H2 H3]];
      repeat split; try tauto; discriminate.
  - unfold len. apply inj_le.
    etransitivity;
      [|apply (Hlen movies)].
    etransitivity;
      [destruct (genre_filter fs);
       [apply Nat.le_refl|apply FilterMore.length_keep_ids]|].
    rewrite FilterMore.length_reset_index.
    destruct (content_type fs); simpl; lia.
  - unfold len. apply inj_le.
    etransitivity;
      [|apply (Hlen tvshows)].
    etransitivity;
      [destruct (genre_filter fs);
       [apply Nat.le_refl|apply FilterMore.length_keep_ids]|].
    rewrite FilterMore.length_reset_index.
    destruct (content_type fs); simpl; lia.
Qed.

(** X6.  With no genre selected, the filtered movies table holds the rows
    of the cleaned movies table whose year is in the range and whose
    rating is selected (any rating when none is selected), in their
    order and numbered again from 0, and it is empty when the content type
    is TV Shows; likewise for the TV shows table and the content type
    Movies. *)
Theorem filters_without_genres
  (fs : FilterSpec) (db : Database) (movies tvshows : frame (row Z)) :
  genre_filter fs = [] ->
  let keep := fun r : row Z =>
                between (year_range fs) (release_year r)
                && match rating_filter fs with
                   | [] => true
                   | _ :: _ => isin (rating_filter fs) (rating r)
                   end in
  fst (apply_filters fs db movies tvshows)
  = of_rows (match content_type fs with
             | TV_Shows => []
             | _ => filter keep (rows movies)
             end)
  /\ snd (apply_filters fs db movies tvshows)
     = of_rows (match content_type fs with
                | Movies => []
                | _ => filter keep (rows tvshows)
                end).
Proof.
  intros Hg keep.
  rewrite FilterMore.fst_apply_filters, FilterMore.snd_apply_filters, Hg.
  rewrite FilterMore.fst_basic_filters, FilterMore.snd_basic_filters.
  unfold reset_index.
  assert (Hrows : forall f : frame (row Z),
             rows (rating_step fs (year_step fs f)) = filter keep (rows f)).
  { intros f. rewrite EngineFacts.rows_rating_year. reflexivity. }
  split; destruct (content_type fs); try reflexivity; now rewrite Hrows.
Qed.

Lemma filters_without_genres_witness :
  fst (apply_filters (mkFilterSpec (2010, 2020) Both [] [] ["R"%string])
         Examples.sample_db Examples.sample_movies Examples.sample_tvshows)
  = of_rows [mkRow 2015 (Some "R"%string) (Examples.title "B")].
Proof.
  exact (proj1 (filters_without_genres
                  (mkFilterSpec (2010, 2020) Both [] [] ["R"%string])
                  Examples.sample_db
                  Examples.sample_movies Examples.sample_tvshows eq_refl)).
Defined.

(** X7.  With genres selected, the ids the genre query returns are the
    rowids of the links whose genre is one of the selected genres, each
    once; the filtered movies table then holds, for each such id [i], the
    row at position [i] of the table left by the year, rating and content
    type steps (none when [i] is not a position of that table), under the
    label [i]; likewise for the TV shows. *)
Theorem genre_filter_keeps_rows_by_position
  (fs : FilterSpec) (db : Database) (movies tvshows : frame (row Z)) :
  genre_filter fs <> [] ->
  let movie_ids := select_rowids (genre_filter fs) (tbl_movie_genres db) in
  let tv_ids := select_rowids (genre_filter fs) (tbl_tvshow_genres db) in
  NoDup movie_ids
  /\ (forall i,
         In i movie_ids
         <-> exists l g,
             In l (tbl_movie_genres db) /\ rowid l = i
             /\ genre l = Some g /\ In g (genre_filter fs))
  /\ (forall i r,
         In (i, r) (fst (apply_filters fs db movies tvshows))
         <-> In i movie_ids /\ 0 <= i
             /\ nth_error (rows (fst (basic_filters fs movies tvshows)))
                  (Z.to_nat i) = Some r)
  /\ (forall i r,
         In (i, r) (snd (apply_filters fs db movies tvshows))
         <-> In i tv_ids /\ 0 <= i
             /\ nth_error (rows (snd (basic_filters fs movies tvshows)))
                  (Z.to_nat i) = Some r).
Proof.
  intros Hg movie_ids tv_ids.
  split; [apply NoDup_nodup|].
  split; [intros i; apply FilterMore.in_select_rowids|].
  assert (Hkeep : forall ids (base : frame (row Z)) i r,
             In (i, r) (keep_ids ids (reset_index base))
             <-> In i ids /\ 0 <= i
                 /\ nth_error (rows (reset_index base)) (Z.to_nat i) = Some r).
  { intros ids base i r. rewrite FrameFacts.rows_reset_index.
    destruct ids as [|z ids'] eqn:E.
    - simpl. tauto.
    - apply FilterMore.in_keep_ids_reset. discriminate. }
  rewrite FilterMore.fst_apply_filters, FilterMore.snd_apply_filters.
  rewrite FilterMore.fst_basic_filters, FilterMore.snd_basic_filters.
  destruct (genre_filter fs) as [|g gs] eqn:Eg; [congruence|].
  split; intros i r; apply Hkeep.
Qed.

Lemma genre_filter_keeps_rows_by_position_witness :
  In (1, mkRow 2016 None (Examples.title "C"))
    (fst (apply_filters Examples.dramas_2010_2020 Examples.sample_db
            Examples.sample_movies Examples.sample_tvshows)).
Proof.
  apply (proj1 (proj2 (proj2 (genre_filter_keeps_rows_by_position
                                Examples.dramas_2010_2020 Examples.sample_db
                                Examples.sample_movies Examples.sample_tvshows
                                ltac:(discriminate))))).
  split; [simpl; tauto|]. split; [lia|reflexivity].
Defined.

(** X8.  With no genre selected, widening the year range loses no row:
    if two selections agree on content type and ratings and the range of
    the second contains the range of the first, every row of a filtered
    table of the first is a row of the same table of the second, and the
    two counts of the first are at most those of the second. *)
Theorem wider_year_range_keeps_rows
  (fs fs' : FilterSpec) (db : Database) (movies tvshows : frame (row Z)) :
  genre_filter fs = [] -> genre_filter fs' = [] ->
  content_type fs = content_type fs' ->
  rating_filter fs = rating_filter fs' ->
  fst (year_range fs') <= fst (year_range fs) ->
  snd (year_range fs) <= snd (year_range fs') ->
  (forall r, In r (rows (fst (apply_filters fs db movies tvshows))) ->
             In r (rows (fst (apply_filters fs' db movies tvshows))))
  /\ (forall r, In r (rows (snd (apply_filters fs db movies tvshows))) ->
                In r (rows (snd (apply_filters fs' db movies tvshows))))
  /\ len (fst (apply_filters fs db movies tvshows))
     <= len (fst (apply_filters fs' db movies tvshows))
  /\ len (snd (apply_filters fs db movies tvshows))
     <= len (snd (apply_filters fs' db movies tvshows)).
Proof.
  intros Hg Hg' Hc Hr Hlo Hhi.
  destruct (filters_without_genres fs db movies tvshows Hg) as [E1 E2].
  destruct (filters_without_genres fs' db movies tvshows Hg') as [E1' E2'].
  cbv zeta in E1, E2, E1', E2'. rewrite E1, E2, E1', E2'.
  rewrite <- Hc, <- Hr. clear E1 E2 E1' E2'.
  set (keep := fun r : row Z =>
                 between (year_range fs) (release_year r)
                 && match rating_filter fs with
                    | [] => true
                    | _ :: _ => isin (rating_filter fs) (rating r)
                    end).
  set (keep' := fun r : row Z =>
                  between (year_range fs') (release_year r)
                  && match rating_filter fs with
                     | [] => true
                     | _ :: _ => isin (rating_filter fs) (rating r)
                     end).
  assert (Himp : forall r, keep r = true -> keep' r = true).
  { intros r. unfold keep, keep'. rewrite !andb_true_iff.
    rewrite !FilterFacts.between_spec. intros [H1 H2]. split; [lia|exact H2]. }
  assert (Hin : forall (l : list (row Z)) r,
             In r (filter keep l) -> In r (filter keep' l)).
  { intros l r. rewrite !filter_In. intros [H1 H2]. auto. }
  assert (Hlen : forall l : list (row Z),
             (List.length (filter keep l) <= List.length (filter keep' l))%nat).
  { intros l. apply FilterMore.filter_incl_length. intros a _. apply Himp. }
  unfold of_rows, len. rewrite !FrameFacts.rows_range_index.
  rewrite !FilterMore.length_range_index.
  destruct (content_type fs); simpl;
    repeat split; auto; try lia; apply inj_le; apply Hlen.
Qed.

Lemma wider_year_range_keeps_rows_witness :
  len (fst (apply_filters (mkFilterSpec (2015, 2015) Both [] [] [])
              Examples.sample_db Examples.sample_movies
              Examples.sample_tvshows))
  <= len (fst (apply_filters (mkFilterSpec (2010, 2020) Both [] [] [])
                 Examples.sample_db Examples.sample_movies
                 Examples.sample_tvshows)).
Proof.
  apply (wider_year_range_keeps_rows
           (mkFilterSpec (2015, 2015) Both [] [] [])
           (mkFilterSpec (2010, 2020) Both [] [] [])
           Examples.sample_db Examples.sample_movies Examples.sample_tvshows
           eq_refl eq_refl eq_refl eq_refl);
    simpl; lia.
Defined.

(** ** Sums of the count columns *)

Module SumFacts.

Import Netflix Count Sidebar.

Lemma column_sum_add {X} (a b : X -> Z) (l : list X) :
  column_sum (map (fun k => a k + b k) l)
  = column_sum (map a l) + column_sum (map b l).
Proof.
  unfold column_sum. induction l as [|x l IH]; simpl; [reflexivity|]. lia.
Qed.

Lemma indicator_not_in (x : Z) (keys : list Z) :
  ~ In x keys ->
  column_sum (map (fun k => if x =? k then 1 else 0) keys) = 0.
Proof.
  unfold column_sum. induction keys as [|k keys IH]; simpl; intros Hn;
    [reflexivity|].
  destruct (x =? k) eqn:E.
  - apply Z.eqb_eq in E. subst k. tauto.
  - rewrite IH by tauto. reflexivity.
Qed.

Lemma indicator_in (x : Z) (keys : list Z) :
  NoDup keys -> In x keys ->
  column_sum (map (fun k => if x =? k then 1 else 0) keys) = 1.
Proof.
  induction keys as [|k keys IH]; intros Hnd Hin; [destruct Hin|].
  apply NoDup_cons_iff in Hnd. destruct Hnd as [Hk Hnd].
  change (column_sum (map (fun k0 => if x =? k0 then 1 else 0) (k :: keys)))
    with ((if x =? k then 1 else 0)
          + column_sum (map (fun k0 => if x =? k0 then 1 else 0) keys)).
  destruct (x =? k) eqn:E.
  - apply Z.eqb_eq in E. subst k. rewrite indicator_not_in by assumption.
    reflexivity.
  - apply Z.eqb_neq in E. destruct Hin as [Hin|Hin]; [congruence|].
    rewrite IH by assumption. reflexivity.
Qed.

(** Over keys that cover a column once each, the occurrences add up to
    the length of the column. *)
Lemma occurrences_add_up (keys col : list Z) :
  NoDup keys -> (forall x, In x col -> In x keys) ->
  column_sum (map (fun k => occurrences k col) keys)
  = Z.of_nat (List.length col).
Proof.
  intros Hnd. induction col as [|x col IH]; intros Hcov.
  - rewrite (map_ext _ (fun _ => 0)) by reflexivity.
    clear Hnd Hcov. unfold column_sum.
    induction keys as [|k keys IHk]; simpl; [reflexivity|exact IHk].
  - assert (Hx : In x keys) by (apply Hcov; now left).
    assert (Hcov' : forall y, In y col -> In y keys)
      by (intros y Hy; apply Hcov; now right).
    rewrite (map_ext _ (fun k => occurrences k col
                                 + (if x =? k then 1 else 0)))
      by (intros k; apply TrendFacts.occurrences_cons).
    rewrite column_sum_add, (IH Hcov'), (indicator_in x keys Hnd Hx).
    simpl List.length. lia.
Qed.

Lemma sorted_app_cross {X} (R : X -> X -> Prop) (a b : list X) :
  StronglySorted R (a ++ b) ->
  forall x y, In x a -> In y b -> R x y.
Proof.
  induction a as [|h a IH]; simpl; intros Hs x y Hx Hy; [destruct Hx|].
  apply StronglySorted_inv in Hs. destruct Hs as [Hs Hall].
  destruct Hx as [<-|Hx].
  - rewrite Forall_forall in Hall. apply Hall. apply in_or_app. now right.
  - now apply IH.
Qed.

Lemma label_sum_insert_desc (x : Sql.label * Z) (l : list (Sql.label * Z)) :
  column_sum (map snd (Sql.insert_desc x l))
  = snd x + column_sum (map snd l).
Proof.
  unfold column_sum. induction l as [|h l IH]; simpl; [reflexivity|].
  destruct (snd h <=? snd x); simpl; [reflexivity|]. rewrite IH. lia.
Qed.

Lemma label_sum_order_by (g : list (Sql.label * Z)) :
  column_sum (map snd (Sql.order_by_total_desc g)) = column_sum (map snd g).
Proof.
  induction g as [|x g IH]; simpl; [reflexivity|].
  rewrite label_sum_insert_desc, IH. reflexivity.
Qed.

Lemma label_sum_bump (k : Sql.label) (g : list (Sql.label * Z)) :
  column_sum (map snd (Sql.bump k g)) = column_sum (map snd g) + 1.
Proof.
  unfold column_sum. induction g as [|[k0 n] g IH]; simpl; [reflexivity|].
  destruct (Sql.label_eqb k k0); simpl; [lia|]. rewrite IH. lia.
Qed.

Lemma label_sum_fold_bump (labels : list Sql.label) :
  forall acc,
    column_sum (map snd (fold_left (fun groups k => Sql.bump k groups)
                           labels acc))
    = column_sum (map snd acc) + Z.of_nat (List.length labels).
Proof.
  induction labels as [|k labels IH]; intros acc; simpl fold_left.
  - simpl. lia.
  - rewrite IH, label_sum_bump. simpl List.length. lia.
Qed.

Lemma label_occurrences_pos (l : Sql.label) (labels : list Sql.label) :
  In l labels -> 1 <= label_occurrences l labels.
Proof.
  induction labels as [|k labels IH]; simpl; [tauto|].
  rewrite SqlFacts.label_occurrences_cons.
  pose proof (SqlFacts.label_occurrences_nonneg l labels) as Hnn.
  intros [->|Hin].
  - rewrite SqlFacts.label_eqb_refl. lia.
  - specialize (IH Hin). destruct (Sql.label_eqb l k); lia.
Qed.

End SumFacts.

(** X9.  The rows of the yearly trend table come in strictly increasing
    order of year, the Movies column adds up to the number of filtered
    movies and the TV Shows column to the number of filtered TV shows: the
    chart accounts for every row counted by the KPIs, once. *)
Theorem trend_columns_add_up (movies_f tvshows_f : frame (row Z)) :
  let trend := year_wise_trends movies_f tvshows_f in
  StronglySorted Z.lt (Count.trend_years trend)
  /\ Sidebar.column_sum (map (fun row => snd (fst row)) trend) = len movies_f
  /\ Sidebar.column_sum (map snd trend) = len tvshows_f
  /\ Sidebar.column_sum (map (fun row => snd (fst row)) trend)
     + Sidebar.column_sum (map snd trend)
     = snd (kpi_metrics movies_f tvshows_f).
Proof.
  intros trend. subst trend.
  rewrite TrendFacts.year_wise_trends_closed_form.
  set (keys := Count.merged_keys (years movies_f) (years tvshows_f)).
  assert (Hsorted : StronglySorted Z.lt keys).
  { unfold keys, Count.merged_keys. apply TrendFacts.sorted_groupby_size. }
  assert (Hnd : NoDup keys) by now apply TrendFacts.sorted_lt_nodup.
  assert (Hm : Sidebar.column_sum
                 (map (fun row : Z * Z * Z => snd (fst row))
                    (map (fun k => (k, Count.rows_in_year k movies_f,
                                    Count.rows_in_year k tvshows_f)) keys))
               = len movies_f).
  { rewrite map_map. simpl. unfold Count.rows_in_year.
    rewrite SumFacts.occurrences_add_up; [|exact Hnd|].
    - unfold years, rows, len. now rewrite !length_map.
    - intros x Hx. apply TrendFacts.in_merged_keys. now left. }
  assert (Ht : Sidebar.column_sum
                 (map snd
                    (map (fun k => (k, Count.rows_in_year k movies_f,
                                    Count.rows_in_year k tvshows_f)) keys))
               = len tvshows_f).
  { rewrite map_map. simpl. unfold Count.rows_in_year.
    rewrite SumFacts.occurrences_add_up; [|exact Hnd|].
    - unfold years, rows, len. now rewrite !length_map.
    - intros x Hx. apply TrendFacts.in_merged_keys. now right. }
  split; [|split; [exact Hm|split; [exact Ht|]]].
  - unfold Count.trend_years. rewrite map_map. simpl.
    now rewrite map_id.
  - rewrite Hm, Ht. reflexivity.
Qed.

(** X10.  A popularity chart shows the largest totals: a row of the full
    popularity table that the chart leaves out has a total no larger than
    that of any row shown.  A table of at most ten labels is shown whole.
    Every row shown carries a label of the association table, with the
    number of rows of that table that carry it, which is at least 1. *)
Theorem chart_shows_the_largest_totals (labels : list Sql.label) :
  let full := Sql.select_label_totals labels in
  let chart := head10 full in
  (forall x y, In x chart -> In y full -> ~ In y chart -> snd y <= snd x)
  /\ ((List.length full <= 10)%nat -> chart = full)
  /\ (forall l n,
         In (l, n) chart ->
         In l labels /\ n = Count.label_occurrences l labels /\ 1 <= n).
Proof.
  intros full chart.
  pose proof (SqlFacts.select_label_totals_spec labels) as [Hs [Hnd Hin]].
  fold full in Hs, Hnd, Hin.
  split; [|split].
  - intros x y Hx Hy Hny.
    assert (Hy' : In y (skipn 10 full)).
    { rewrite <- (firstn_skipn 10 full) in Hy.
      apply in_app_or in Hy. destruct Hy as [Hy|Hy]; [|exact Hy].
      exfalso. apply Hny. exact Hy. }
    rewrite <- (firstn_skipn 10 full) in Hs.
    apply (SumFacts.sorted_app_cross _ _ _ Hs x y Hx Hy').
  - intros Hlen. unfold chart, head10. now apply firstn_all2.
  - intros l n Hc.
    assert (Hf : In (l, n) full).
    { unfold chart, head10 in Hc.
      rewrite <- (firstn_skipn 10 full). apply in_or_app. now left. }
    apply Hin in Hf. destruct Hf as [Hl ->].
    split; [exact Hl|]. split; [reflexivity|].
    now apply SumFacts.label_occurrences_pos.
Qed.

(** X11.  The totals of a popularity table add up to the number of rows
    of its association table: every row is counted in exactly one group,
    the rows whose label is NULL in a group of their own. *)
Theorem popularity_totals_add_up (labels : list Sql.label) :
  Sidebar.column_sum (map snd (Sql.select_label_totals labels))
  = Z.of_nat (List.length labels)
  /\ (In None labels ->
      In (None, Count.label_occurrences None labels)
        (Sql.select_label_totals labels)).
Proof.
  split.
  - unfold Sql.select_label_totals, Sql.group_count.
    rewrite SumFacts.label_sum_order_by, SumFacts.label_sum_fold_bump.
    reflexivity.
  - intros Hin.
    pose proof (SqlFacts.select_label_totals_spec labels) as [_ [_ H]].
    apply H. split; [exact Hin|reflexivity].
Qed.

(** ** Sorted texts *)

Module StrFacts.

Import Sidebar.

Lemma ascii_compare_refl (c : ascii) : Ascii.compare c c = Eq.
Proof. unfold Ascii.compare. apply N.compare_refl. Qed.

Lemma compare_refl (s : string) : String.compare s s = Eq.
Proof.
  induction s as [|c s IH]; simpl; [reflexivity|].
  now rewrite ascii_compare_refl.
Qed.

Lemma ascii_compare_lt_trans (a b c : ascii) :
  Ascii.compare a b = Lt -> Ascii.compare b c = Lt -> Ascii.compare a c = Lt.
Proof.
  unfold Ascii.compare. rewrite !N.compare_lt_iff. lia.
Qed.

Lemma compare_lt_trans (a : string) :
  forall b c,
    String.compare a b = Lt -> String.compare b c = Lt ->
    String.compare a c = Lt.
Proof.
  induction a as [|x a IH]; intros [|y b] [|z c]; simpl; try discriminate;
    try reflexivity.
  destruct (Ascii.compare x y) eqn:Exy; try discriminate;
    destruct (Ascii.compare y z) eqn:Eyz; try discriminate; intros H1 H2.
  - apply Ascii.compare_eq_iff in Exy, Eyz. subst. 
    rewrite ascii_compare_refl. eauto.
  - apply Ascii.compare_eq_iff in Exy. subst. now rewrite Eyz.
  - apply Ascii.compare_eq_iff in Eyz. subst. now rewrite Exy.
  - now rewrite (ascii_compare_lt_trans x y z Exy Eyz).
Qed.

Lemma str_lt_trans (a b c : string) : str_lt a b -> str_lt b c -> str_lt a c.
Proof.
  unfold str_lt, String.ltb.
  destruct (String.compare a b) eqn:E1; try discriminate.
  destruct (String.compare b c) eqn:E2; try discriminate.
  intros _ _. now rewrite (compare_lt_trans a b c E1 E2).
Qed.

Lemma str_lt_irrefl (a : string) : ~ str_lt a a.
Proof. unfold str_lt, String.ltb. rewrite compare_refl. discriminate. Qed.

Lemma leb_false_lt (x y : string) : String.leb x y = false -> str_lt y x.
Proof.
  unfold str_lt, String.leb, String.ltb.
  rewrite (String.compare_antisym y x).
  destruct (String.compare x y); simpl; congruence.
Qed.

Lemma leb_true_neq_lt (x y : string) :
  String.leb x y = true -> x <> y -> str_lt x y.
Proof.
  unfold str_lt, String.leb, String.ltb.
  destruct (String.compare x y) eqn:E; try congruence.
  apply String.compare_eq_iff in E. congruence.
Qed.

Lemma ltb_false_eqb_false_lt (x y : string) :
  String.ltb x y = false -> String.eqb x y = false -> str_lt y x.
Proof.
  intros Hlt Hne. apply String.eqb_neq in Hne.
  unfold str_lt, String.ltb in *.
  rewrite (String.compare_antisym y x).
  destruct (String.compare x y) eqn:E; simpl; try congruence.
  apply String.compare_eq_iff in E. congruence.
Qed.

Lemma sorted_str_nodup (l : list string) :
  StronglySorted str_lt l -> NoDup l.
Proof.
  induction 1 as [|a l Hs IH Hall]; constructor; [|assumption].
  intros Hin. rewrite Forall_forall in Hall.
  apply (str_lt_irrefl a). now apply Hall.
Qed.

Lemma in_insert_sorted (x y : string) (l : list string) :
  In y (insert_sorted x l) <-> y = x \/ In y l.
Proof.
  induction l as [|h l IH]; simpl.
  - intuition congruence.
  - destruct (String.leb x h); simpl; [intuition congruence|].
    rewrite IH. intuition congruence.
Qed.

Lemma in_sorted (y : string) (l : list string) : In y (sorted l) <-> In y l.
Proof.
  induction l as [|x l IH]; simpl; [tauto|].
  rewrite in_insert_sorted, IH. intuition congruence.
Qed.

Lemma sorted_insert_sorted (x : string) (l : list string) :
  StronglySorted str_lt l -> ~ In x l ->
  StronglySorted str_lt (insert_sorted x l).
Proof.
  induction l as [|h l IH]; simpl; intros Hs Hx.
  - repeat constructor.
  - pose proof (StronglySorted_inv Hs) as [Hs' Hall].
    destruct (String.leb x h) eqn:E.
    + assert (Hlt : str_lt x h).
      { apply leb_true_neq_lt; [exact E|]. intros ->. tauto. }
      constructor; [exact Hs|]. constructor; [exact Hlt|].
      eapply Forall_impl; [|exact Hall]. intros a Ha.
      now apply (str_lt_trans x h a).
    + apply leb_false_lt in E. constructor; [apply IH; tauto|].
      apply Forall_forall. intros a Ha. apply in_insert_sorted in Ha.
      destruct Ha as [->|Ha]; [exact E|].
      rewrite Forall_forall in Hall. auto.
Qed.

Lemma sorted_strictly (l : list string) :
  NoDup l -> StronglySorted str_lt (sorted l).
Proof.
  induction l as [|x l IH]; simpl; intros Hnd; [constructor|].
  apply NoDup_cons_iff in Hnd. destruct Hnd as [Hx Hnd].
  apply sorted_insert_sorted; [auto|]. now rewrite in_sorted.
Qed.

Lemma existsb_eqb_in (x : string) (l : list string) :
  existsb (String.eqb x) l = true <-> In x l.
Proof.
  rewrite existsb_exists. split.
  - intros [y [Hy Heq]]. apply String.eqb_eq in Heq. now subst.
  - intros Hin. exists x. split; [exact Hin|apply String.eqb_refl].
Qed.

Lemma unique_fold_spec (col : list string) :
  forall seen,
    NoDup seen ->
    let r := fold_left
               (fun seen x =>
                  if existsb (String.eqb x) seen then seen else seen ++ [x])
               col seen in
    NoDup r /\ forall x, In x r <-> In x seen \/ In x col.
Proof.
  induction col as [|c col IH]; intros seen Hnd; simpl.
  - split; [exact Hnd|tauto].
  - destruct (existsb (String.eqb c) seen) eqn:E.
    + apply existsb_eqb_in in E.
      destruct (IH seen Hnd) as [H1 H2]. split; [exact H1|].
      intros x. rewrite H2. intuition congruence.
    + assert (Hc : ~ In c seen).
      { intros Hin. apply existsb_eqb_in in Hin. congruence. }
      assert (Hnd' : NoDup (seen ++ [c])).
      { apply NoDup_app; [exact Hnd|repeat constructor; tauto|].
        intros a Ha [<-|[]]. tauto. }
      destruct (IH (seen ++ [c]) Hnd') as [H1 H2]. split; [exact H1|].
      intros x. rewrite H2, in_app_iff. simpl. intuition congruence.
Qed.

Lemma unique_spec (col : list string) :
  NoDup (unique col) /\ forall x, In x (unique col) <-> In x col.
Proof.
  destruct (unique_fold_spec col [] (NoDup_nil _)) as [H1 H2].
  split; [exact H1|]. intros x. specialize (H2 x). simpl in H2.
  unfold unique. tauto.
Qed.

Lemma in_dropna (s : string) (col : list (option string)) :
  In s (dropna col) <-> In (Some s) col.
Proof.
  unfold dropna. rewrite in_flat_map. split.
  - intros [[x|] [Hin Hs]]; simpl in Hs; [|tauto].
    destruct Hs as [->|[]]. exact Hin.
  - intros Hin. exists (Some s). split; [exact Hin|now left].
Qed.

Lemma master_values_spec (col : list (option string)) :
  StronglySorted str_lt (master_values col)
  /\ forall s, In s (master_values col) <-> In (Some s) col.
Proof.
  unfold master_values.
  destruct (unique_spec (dropna col)) as [Hnd Hin]. split.
  - now apply sorted_strictly.
  - intros s. now rewrite in_sorted, Hin, in_dropna.
Qed.

Lemma sorted_set_spec (a b : list string) :
  StronglySorted str_lt (sorted_set a b)
  /\ forall s, In s (sorted_set a b) <-> In s a \/ In s b.
Proof.
  unfold sorted_set.
  destruct (unique_spec (a ++ b)) as [Hnd Hin]. split.
  - now apply sorted_strictly.
  - intros s. now rewrite in_sorted, Hin, in_app_iff.
Qed.

(** The labels of a popularity table are the labels of its column. *)
Lemma in_labels_of_totals (l : Sql.label) (labels : list Sql.label) :
  In l (map fst (Sql.select_label_totals labels)) <-> In l labels.
Proof.
  pose proof (SqlFacts.select_label_totals_spec labels) as [_ [_ H]].
  rewrite in_map_iff. split.
  - intros [[l' n] [Heq Hin]]. simpl in Heq. subst l'.
    apply H in Hin. tauto.
  - intros Hin. exists (l, Count.label_occurrences l labels).
    split; [reflexivity|]. apply H. tauto.
Qed.

End StrFacts.

(** X12.  The options of the genre, country and rating multiselects come
    in strictly increasing order, so none is offered twice.  A genre is an
    option exactly when some row of either genre table carries it, a
    country exactly when some row of either country table carries it, and
    a rating exactly when some row of the cleaned movies or TV shows table
    has it; a missing label is never an option. *)
Theorem multiselect_options_are_the_labels
  (db : Database) (movies tvshows : frame (row Z)) :
  (StronglySorted Sidebar.str_lt (Sidebar.genre_options db)
   /\ forall g,
       In g (Sidebar.genre_options db)
       <-> In (Some g) (map genre (tbl_movie_genres db))
           \/ In (Some g) (map genre (tbl_tvshow_genres db)))
  /\ (StronglySorted Sidebar.str_lt (Sidebar.country_options db)
      /\ forall c,
          In c (Sidebar.country_options db)
          <-> In (Some c) (map country (tbl_movie_countries db))
              \/ In (Some c) (map country (tbl_tvshows_countries db)))
  /\ (StronglySorted Sidebar.str_lt (Sidebar.rating_options movies tvshows)
      /\ forall s,
          In s (Sidebar.rating_options movies tvshows)
          <-> In (Some s) (map rating (rows movies))
              \/ In (Some s) (map rating (rows tvshows))).
Proof.
  split; [|split].
  - unfold Sidebar.genre_options.
    destruct (StrFacts.sorted_set_spec (Sidebar.all_movie_genres db)
                (Sidebar.all_tv_genres db)) as [Hs Hin].
    split; [exact Hs|]. intros g. rewrite Hin.
    unfold Sidebar.all_movie_genres, Sidebar.all_tv_genres.
    rewrite !(proj2 (StrFacts.master_values_spec _)).
    unfold load_movie_genres, load_tv_genres.
    now rewrite !StrFacts.in_labels_of_totals.
  - unfold Sidebar.country_options.
    destruct (StrFacts.sorted_set_spec (Sidebar.all_movie_countries db)
                (Sidebar.all_tv_countries db)) as [Hs Hin].
    split; [exact Hs|]. intros c. rewrite Hin.
    unfold Sidebar.all_movie_countries, Sidebar.all_tv_countries.
    rewrite !(proj2 (StrFacts.master_values_spec _)).
    unfold load_movie_countries, load_tv_countries.
    now rewrite !StrFacts.in_labels_of_totals.
  - unfold Sidebar.rating_options.
    destruct (StrFacts.sorted_set_spec (Sidebar.all_movie_ratings movies)
                (Sidebar.all_tv_ratings tvshows)) as [Hs Hin].
    split; [exact Hs|]. intros s. rewrite Hin.
    unfold Sidebar.all_movie_ratings, Sidebar.all_tv_ratings.
    now rewrite !(proj2 (StrFacts.master_values_spec _)).
Qed.

(** ** The rating chart *)

Module RatingFacts.

Import Netflix Sidebar StrFacts.

Lemma in_keys_count_rating (k k' : string) (g : list (string * Z)) :
  In k' (map fst (count_rating k g)) <-> k' = k \/ In k' (map fst g).
Proof.
  induction g as [|[k0 n] g IH]; simpl.
  - intuition congruence.
  - destruct (String.ltb k k0); simpl; [intuition congruence|].
    destruct (String.eqb k k0) eqn:E; simpl.
    + apply String.eqb_eq in E. subst k0. intuition congruence.
    + rewrite IH. intuition congruence.
Qed.

Lemma sorted_count_rating (k : string) (g : list (string * Z)) :
  StronglySorted str_lt (map fst g) ->
  StronglySorted str_lt (map fst (count_rating k g)).
Proof.
  induction g as [|[k0 n] g IH]; simpl; intros Hs.
  - repeat constructor.
  - pose proof (StronglySorted_inv Hs) as [Hs' Hall].
    destruct (String.ltb k k0) eqn:Hlt; simpl.
    + constructor; [exact Hs|]. constructor; [exact Hlt|].
      eapply Forall_impl; [|exact Hall]. intros a Ha.
      now apply (str_lt_trans k k0 a).
    + destruct (String.eqb k k0) eqn:Heq; simpl.
      * constructor; assumption.
      * constructor; [auto|].
        apply Forall_forall. intros a Ha. apply in_keys_count_rating in Ha.
        destruct Ha as [->|Ha].
        -- now apply ltb_false_eqb_false_lt.
        -- rewrite Forall_forall in Hall. auto.
Qed.

Lemma rating_total_at_cons (k k0 : string) (n : Z) (g : list (string * Z)) :
  rating_total_at k ((k0, n) :: g)
  = (if String.eqb k k0 then n else 0) + rating_total_at k g.
Proof.
  unfold rating_total_at, column_sum. simpl.
  destruct (String.eqb k k0); reflexivity.
Qed.

Lemma rating_total_at_count_rating (k k' : string) (g : list (string * Z)) :
  rating_total_at k' (count_rating k g)
  = rating_total_at k' g + (if String.eqb k' k then 1 else 0).
Proof.
  induction g as [|[k0 n] g IH]; simpl.
  - rewrite rating_total_at_cons. unfold rating_total_at, column_sum.
    simpl. lia.
  - destruct (String.ltb k k0).
    + rewrite (rating_total_at_cons k' k 1). lia.
    + destruct (String.eqb k k0) eqn:E.
      * apply String.eqb_eq in E. subst k0. rewrite !rating_total_at_cons.
        destruct (String.eqb k' k); lia.
      * rewrite !rating_total_at_cons, IH. lia.
Qed.

Lemma sum_count_rating (k : string) (g : list (string * Z)) :
  column_sum (map snd (count_rating k g)) = column_sum (map snd g) + 1.
Proof.
  unfold column_sum. induction g as [|[k0 n] g IH];
    cbn [count_rating map fold_right snd]; [reflexivity|].
  destruct (String.ltb k k0); cbn [map fold_right snd]; [lia|].
  destruct (String.eqb k k0); cbn [map fold_right snd]; [lia|].
  rewrite IH. lia.
Qed.

Lemma str_occurrences_cons (k x : string) (col : list string) :
  str_occurrences k (x :: col)
  = str_occurrences k col + (if String.eqb k x then 1 else 0).
Proof.
  unfold str_occurrences. simpl.
  destruct (String.eqb k x); simpl List.length; lia.
Qed.

Lemma groups_spec (col : list string) :
  let g := fold_right count_rating [] col in
  StronglySorted str_lt (map fst g)
  /\ (forall k, In k (map fst g) <-> In k col)
  /\ (forall k, rating_total_at k g = str_occurrences k col)
  /\ column_sum (map snd g) = Z.of_nat (List.length col).
Proof.
  induction col as [|x col IH]; simpl.
  - split; [constructor|]. split; [tauto|]. split; reflexivity.
  - destruct IH as [H1 [H2 [H3 H4]]]. split; [|split; [|split]].
    + now apply sorted_count_rating.
    + intros k. rewrite in_keys_count_rating, H2. intuition congruence.
    + intros k. now rewrite rating_total_at_count_rating, H3,
        str_occurrences_cons.
    + rewrite sum_count_rating, H4. lia.
Qed.

Lemma rating_total_at_not_in (k : string) (g : list (string * Z)) :
  ~ In k (map fst g) -> rating_total_at k g = 0.
Proof.
  induction g as [|[k0 n] g IH]; simpl; intros Hn; [reflexivity|].
  rewrite rating_total_at_cons, IH by tauto.
  destruct (String.eqb k k0) eqn:E; [|reflexivity].
  apply String.eqb_eq in E. subst. tauto.
Qed.

Lemma rating_total_at_in (k : string) (n : Z) (g : list (string * Z)) :
  NoDup (map fst g) -> In (k, n) g -> rating_total_at k g = n.
Proof.
  induction g as [|[k0 m] g IH]; simpl; intros Hnd Hin; [tauto|].
  apply NoDup_cons_iff in Hnd. destruct Hnd as [Hk Hnd].
  rewrite rating_total_at_cons. destruct Hin as [[= -> ->]|Hin].
  - rewrite String.eqb_refl, rating_total_at_not_in by assumption. lia.
  - destruct (String.eqb k k0) eqn:E.
    + apply String.eqb_eq in E. subst k0. exfalso. apply Hk.
      apply in_map_iff. now exists (k, n).
    + rewrite (IH Hnd Hin). lia.
Qed.

Lemma str_occurrences_dropna (s : string) (col : list (option string)) :
  str_occurrences s (dropna col) = Count.label_occurrences (Some s) col.
Proof.
  unfold str_occurrences, Count.label_occurrences, dropna. f_equal.
  induction col as [|[x|] col IH]; simpl; [reflexivity| |exact IH].
  destruct (String.eqb s x); simpl; now rewrite IH.
Qed.

Lemma length_dropna (col : list (option string)) :
  Z.of_nat (List.length (dropna col))
  = Z.of_nat (List.length col) - Count.label_occurrences None col.
Proof.
  unfold Count.label_occurrences, dropna.
  induction col as [|[x|] col IH]; simpl flat_map; simpl filter;
    simpl List.length; lia.
Qed.

End RatingFacts.

(** X13.  The rating chart of a filtered table has one bar per rating
    found in the table, in strictly increasing order of rating, and the
    total of a bar is the number of rows with that rating.  Rows without a
    rating are in no bar: the totals add up to the number of rows of the
    table less the number of rows whose rating is missing. *)
Theorem rating_chart_counts_rated_rows (f : frame (row Z)) :
  let chart := Sidebar.rating_totals f in
  let ratings := map rating (rows f) in
  StronglySorted Sidebar.str_lt (map fst chart)
  /\ (forall s n,
         In (s, n) chart
         <-> In (Some s) ratings
             /\ n = Count.label_occurrences (Some s) ratings)
  /\ Sidebar.column_sum (map snd chart)
     = len f - Count.label_occurrences None ratings.
Proof.
  intros chart ratings.
  destruct (RatingFacts.groups_spec (Sidebar.dropna ratings))
    as [Hs [Hk [Ht Hsum]]].
  fold ratings in chart. unfold Sidebar.rating_totals in chart.
  fold ratings in chart. fold chart in Hs, Hk, Ht, Hsum.
  assert (Hnd : NoDup (map fst chart)) by now apply StrFacts.sorted_str_nodup.
  split; [exact Hs|]. split.
  - intros s n. split.
    + intros Hin. split.
      * apply StrFacts.in_dropna. apply Hk. apply in_map_iff.
        now exists (s, n).
      * rewrite <- RatingFacts.str_occurrences_dropna, <- Ht.
        symmetry. now apply RatingFacts.rating_total_at_in.
    + intros [Hin ->].
      assert (Hkey : In s (map fst chart)).
      { apply Hk. now apply StrFacts.in_dropna. }
      apply in_map_iff in Hkey. destruct Hkey as [[s' n] [Heq Hin']].
      simpl in Heq. subst s'.
      rewrite <- RatingFacts.str_occurrences_dropna, <- Ht.
      now rewrite (RatingFacts.rating_total_at_in s n chart Hnd Hin').
  - rewrite Hsum, RatingFacts.length_dropna.
    unfold ratings, len, rows. now rewrite !length_map.
Qed.

(** ** The page as a whole *)

Module PageFacts.

Import Py Frame Netflix.




End PageFacts.

